(** * toDocx: the PPTX / PDF to DOCX converter, [PDFnPPTX2docxV2.py]

    A shallow embedding of the converter's two pipelines and of the
    helpers they share, followed by the properties of the conversion.

    Conventions of the embedding.
    - A Python [str] is the list of its Unicode code points.
    - The output document is the ordered log of the append calls made on
      it (heading, paragraph, picture, table, page break); the files
      written to the image directory are a second log, in write order.
    - A [try: ... except:] block is a computation in the [exc] type whose
      [Raise] outcome is replaced by the handler's value at the block.
    - A float is the rational it denotes. [process_shape] keeps the width
      of a picture as the exact quotient; [width_inches_float] and
      [Inches] give the float and the length the code computes.
    - [process_shape], [pptx_to_docx] and [pdf_to_docx] describe a run in
      which every library call returns; the steps that can raise are
      also given with their exceptions ([color_step], [save_image],
      [picture_branch]). *)

From Stdlib Require Import Ascii String Decimal DecimalNat.
From Stdlib Require Import Bool Arith ZArith NArith QArith Qminmax Lia List.
Import ListNotations.
Close Scope Q_scope.

Set Implicit Arguments.

(** ** Python strings *)

Module Py.

Definition str := list N.

(** An ASCII literal as a Python string. *)
Definition lit (s : string) : str :=
  map N_of_ascii (list_ascii_of_string s).

(** [s.startswith(p)] *)
Fixpoint startswith (p s : str) : bool :=
  match p, s with
  | [], _ => true
  | _ :: _, [] => false
  | a :: p', b :: s' => N.eqb a b && startswith p' s'
  end.

(** [needle in hay] *)
Fixpoint contains (needle hay : str) : bool :=
  startswith needle hay ||
  match hay with
  | [] => false
  | _ :: t => contains needle t
  end.

(** [c.isspace()]: the code points of category Zs or of bidirectional
    class WS, B or S. *)
Definition isspace (c : N) : bool :=
  ((9 <=? c) && (c <=? 13) || (28 <=? c) && (c <=? 32)
   || (c =? 133) || (c =? 160) || (c =? 5760)
   || (8192 <=? c) && (c <=? 8202)
   || (c =? 8232) || (c =? 8233) || (c =? 8239) || (c =? 8287)
   || (c =? 12288))%N.

Fixpoint lstrip (s : str) : str :=
  match s with
  | [] => []
  | c :: t => if isspace c then lstrip t else s
  end.

Definition rstrip (s : str) : str := rev (lstrip (rev s)).

(** [s.strip()] *)
Definition strip (s : str) : str := rstrip (lstrip s).

(** [s.split(sep)] for a one-character separator; [cur] holds the
    piece being read, last character first. *)
Fixpoint split_from (sep : N) (cur s : str) : list str :=
  match s with
  | [] => [rev cur]
  | c :: t =>
      if N.eqb c sep then rev cur :: split_from sep [] t
      else split_from sep (c :: cur) t
  end.

Definition split (sep : N) (s : str) : list str := split_from sep [] s.

(** Decimal digits of a non-negative [int], as [str(n)] and the
    f-string fields [{n}] print them. *)
Fixpoint digits (d : uint) : str :=
  match d with
  | Nil => []
  | D0 d => 48%N :: digits d
  | D1 d => 49%N :: digits d
  | D2 d => 50%N :: digits d
  | D3 d => 51%N :: digits d
  | D4 d => 52%N :: digits d
  | D5 d => 53%N :: digits d
  | D6 d => 54%N :: digits d
  | D7 d => 55%N :: digits d
  | D8 d => 56%N :: digits d
  | D9 d => 57%N :: digits d
  end.

Definition str_of_nat (n : nat) : str := digits (Nat.to_uint n).

Definition isdigit (c : N) : bool := ((48 <=? c) && (c <=? 57))%N.

(** The bullet glyph U+2022 and the line feed. *)
Definition bullet : str := [8226%N].
Definition LF : N := 10%N.

(** The outcome of a Python expression that may raise. *)
Inductive exn :=
| AttributeError | IndexError | ValueError | OSError
| OverflowError | UnrecognizedImageError.

Inductive exc (A : Type) : Type :=
| Return (a : A)
| Raise (e : exn).
Arguments Raise {A} e.

Definition bind {A B} (m : exc A) (k : A -> exc B) : exc B :=
  match m with
  | Return a => k a
  | Raise e => Raise e
  end.

(** [try: body  except: handler] *)
Definition try_except {A} (body : exc A) (handler : A) : A :=
  match body with
  | Return a => a
  | Raise _ => handler
  end.

(** [a == b] on strings. *)
Definition eqb (a b : str) : bool :=
  if list_eq_dec N.eq_dec a b then true else false.

Definition isascii (c : N) : bool := (c <? 128)%N.

Definition lower_char (c : N) : N :=
  if ((65 <=? c) && (c <=? 90))%N then (c + 32)%N else c.

(** [s.lower()]: on an ASCII string the letters A-Z become a-z; the case
    mapping of the other strings is the parameter [unicode_lower]. *)
Definition lower (unicode_lower : str -> str) (s : str) : str :=
  if forallb isascii s then map lower_char s else unicode_lower s.

(** [sep.join(l)] *)
Fixpoint join (sep : str) (l : list str) : str :=
  match l with
  | [] => []
  | x :: r =>
      match r with
      | [] => x
      | _ :: _ => x ++ sep ++ join sep r
      end
  end.

(** [s.rfind(c)] for a one-character [c]: the highest index of [c], [None]
    for Python's -1. *)
Fixpoint rfind (c : N) (s : str) : option nat :=
  match s with
  | [] => None
  | a :: t =>
      match rfind c t with
      | Some k => Some (S k)
      | None => if N.eqb a c then Some 0 else None
      end
  end.

(** [[f(x) for x in l]] for an [f] that may raise: the first exception
    ends the loop. *)
Fixpoint mapM {A B} (f : A -> exc B) (l : list A) : exc (list B) :=
  match l with
  | [] => Return []
  | x :: r =>
      bind (f x) (fun y => bind (mapM f r) (fun ys => Return (y :: ys)))
  end.

(** [hasattr(obj, name)], from the outcome of the attribute access: an
    [AttributeError] gives [False], any other exception goes through. *)
Definition hasattr_strict {A} (access : exc A) : exc bool :=
  match access with
  | Return _ => Return true
  | Raise AttributeError => Return false
  | Raise e => Raise e
  end.

(** *** Floats

    A float is the rational it denotes. *)

(** The rounding of quotient [m], remainder [r] of a division by [d] to
    the nearest integer, ties to the even one. *)
Definition round_half_even (m r d : Z) : Z :=
  if (2 * r <? d)%Z then m
  else if (d <? 2 * r)%Z then (m + 1)%Z
  else if Z.even m then m else (m + 1)%Z.

(** The binary64 number nearest to [a / b] for positive [a] and [b] (53
    significant bits, ties to even, no exponent below -1074), or [None]
    when that is 2^1024 or more. *)
Definition nearest_binary64 (a b : Z) : option Q :=
  let e0 := (Z.log2 a - Z.log2 b)%Z in
  let e :=                               (* 2^e <= a / b < 2^(e + 1) *)
    if (if (0 <=? e0)%Z then (b * 2 ^ e0 <=? a)%Z
        else (b <=? a * 2 ^ (- e0))%Z)
    then e0 else (e0 - 1)%Z in
  let s := Z.min (52 - e) 1074 in        (* the unit in the last place is 2^-s *)
  let '(n, d) :=
    if (0 <=? s)%Z then ((a * 2 ^ s)%Z, b) else (a, (b * 2 ^ (- s))%Z) in
  let '(m, r) := Z.div_eucl n d in
  let m' := round_half_even m r d in
  if (0 <=? s)%Z then
    if (2 ^ (1024 + s) <=? m')%Z then None
    else Some (m' # Z.to_pos (2 ^ s))%Q
  else
    if (2 ^ 1024 <=? m' * 2 ^ (- s))%Z then None
    else Some (inject_Z (m' * 2 ^ (- s)))%Q.

(** [a / b] on integers with [b] positive: the float nearest to the exact
    quotient, or [OverflowError]. *)
Definition true_div (a b : Z) : exc Q :=
  match a with
  | Z0 => Return 0%Q
  | Zpos _ =>
      match nearest_binary64 a b with
      | Some q => Return q
      | None => Raise OverflowError
      end
  | Zneg _ =>
      match nearest_binary64 (- a) b with
      | Some q => Return (- q)%Q
      | None => Raise OverflowError
      end
  end.

End Py.

Notation "x <- m ;; k" := (Py.bind m (fun x => k))
  (at level 61, m at next level, right associativity).

(** [enumerate(l)] *)
Definition enumerate {A} (l : list A) : list (nat * A) :=
  combine (seq 0 (length l)) l.

(** ** The source documents, as the converter reads them *)

(** What evaluating [font.color.rgb] gives when it raises no exception
    other than [AttributeError]: the attribute access raises
    [AttributeError] (a colour that is not an RGB colour), or it yields
    [None] or a tuple of integers. The other exceptions are taken up by
    [color_step]. *)
Inductive rgb_attr :=
| NoRgbAttr
| RgbValue (v : option (list Z)).

Module Font.
Record t := mk {
  color : option rgb_attr;      (* [None]: [font.color] is falsy *)
  bold : option bool;
  italic : option bool;
  underline : option bool;
  size : option Z;              (* a length in EMU, 12700 to the point *)
  name : option Py.str
}.
End Font.

Module Run.
Record t := mk { text : Py.str; font : Font.t }.
End Run.

Module Para.
Record t := mk { level : Z; text : Py.str; runs : list Run.t }.
End Para.

Module Image.
Record t := mk {
  ext : Py.str;
  blob : list N;
  (* outcome of [Image.open(filename).size[0]] on the file holding [blob] *)
  size0 : Py.exc Z
}.
End Image.

Module Table.
Record t := mk {
  rows : list (list Py.str);    (* [cell.text_frame.text] of each row's cells *)
  columns : nat                 (* [len(table.columns)] *)
}.
End Table.

Module Shape.
#[local] Unset Elimination Schemes.
Inductive t := mk {
  visible : option bool;        (* [None]: the shape has no attribute [visible] *)
  shape_type : option Z;
  shapes : option (list t);     (* [None]: the shape has no attribute [shapes] *)
  has_text_frame : bool;
  text_frame : list Para.t;     (* [shape.text_frame.paragraphs] *)
  image : option Image.t;       (* [None]: the shape has no attribute [image] *)
  has_table : bool;
  table : Table.t;
  name : Py.str                 (* [str(shape.name)] *)
}.
#[local] Set Elimination Schemes.
End Shape.

Definition Slide := list Shape.t.           (* [slide.shapes] *)
Definition Presentation := list Slide.      (* [prs.slides] *)

(** ** Induction on shapes, through the children of groups *)

Section ShapeInduction.

Variable P : Shape.t -> Prop.

Hypothesis step :
  forall v ty shs htf tf img htab tab nm,
    match shs with Some l => Forall P l | None => True end ->
    P (Shape.mk v ty shs htf tf img htab tab nm).

Fixpoint shape_ind (s : Shape.t) : P s :=
  match s with
  | Shape.mk v ty shs htf tf img htab tab nm =>
      step v ty shs htf tf img htab tab nm
        (match shs as o
               return match o with Some l => Forall P l | None => True end
         with
         | Some l =>
             (fix children (l : list Shape.t) : Forall P l :=
                match l with
                | [] => Forall_nil P
                | x :: r => Forall_cons x (shape_ind x) (children r)
                end) l
         | None => I
         end)
  end.

End ShapeInduction.

Module Pixmap.
Record t := mk {
  n : Z;                        (* components per pixel, alpha included *)
  alpha : bool;                 (* never read by the converter *)
  samples : list N
}.
End Pixmap.

Module Page.
Record t := mk {
  get_text : Py.str;
  get_images : list Z           (* the xref [img[0]] of each entry *)
}.
End Page.

Module Pdf.
Record t := mk {
  pages : list Page.t;
  pixmap : Z -> Pixmap.t        (* [fitz.Pixmap(pdf, xref)] *)
}.
End Pdf.

(** ** The extracted text records (the dictionaries of [extract_text_runs]) *)

Record rgb_color := RGB { red : Z; green : Z; blue : Z }.

Module RunData.
Record t := mk {
  text : Py.str;
  bold : option bool;
  italic : option bool;
  underline : option bool;
  size : option Q;
  name : option Py.str;
  color : option rgb_color
}.
End RunData.

Module ParaData.
Record t := mk { is_bullet : bool; runs : list RunData.t }.
End ParaData.

(** ** The output document and the image directory *)

Module DocRun.
Record t := mk {
  text : Py.str;
  bold : option bool;
  italic : option bool;
  underline : option bool;
  font_size : option Q;         (* [Pt(size)], unset when [None] *)
  font_name : option Py.str;
  font_color : option rgb_color
}.
End DocRun.

Inductive Block :=
| Heading (text : Py.str) (level : Z)
| Paragraph (text : Py.str) (style : option Py.str) (runs : list DocRun.t)
| Picture (path : Py.str) (width_inches : Q)
| Table (rows cols : nat) (style : Py.str) (cells : list (nat * nat * Py.str))
| PageBreak.

(** What a file of the image directory was written from. *)
Inductive FileData :=
| Blob (bytes : list N)               (* [f.write(image.blob)] *)
| Png (pix : Pixmap.t)                (* [pix.save(path)] *)
| PngRGB (pix : Pixmap.t).            (* [fitz.Pixmap(fitz.csRGB, pix).save(path)] *)

Record World := mkWorld {
  doc : list Block;
  files : list (Py.str * FileData)
}.

Definition Document : World := {| doc := []; files := [] |}.

Definition add_block (w : World) (b : Block) : World :=
  {| doc := doc w ++ [b]; files := files w |}.

Definition write_file (w : World) (path : Py.str) (d : FileData) : World :=
  {| doc := doc w; files := files w ++ [(path, d)] |}.

(** ** [extract_text_runs] *)

(** [docx.shared.RGBColor(r, g, b)]: three integers in 0..255, or
    [ValueError]. *)
Definition RGBColor (r g b : Z) : Py.exc rgb_color :=
  if forallb (fun v => (0 <=? v) && (v <=? 255))%Z [r; g; b]
  then Py.Return (RGB r g b)
  else Py.Raise Py.ValueError.

(** [rgb[i]] *)
Definition getitem (rgb : list Z) (i : nat) : Py.exc Z :=
  match nth_error rgb i with
  | Some v => Py.Return v
  | None => Py.Raise Py.IndexError
  end.

(** The attribute access [font.color.rgb]. *)
Definition get_rgb (c : rgb_attr) : Py.exc (option (list Z)) :=
  match c with
  | NoRgbAttr => Py.Raise Py.AttributeError
  | RgbValue v => Py.Return v
  end.

(** [hasattr(obj, attr)], from the outcome of an attribute access that
    raises [AttributeError] or nothing; [Py.hasattr_strict] is the test on
    any outcome. *)
Definition hasattr {A} (access : Py.exc A) : bool :=
  match access with
  | Py.Return _ => true
  | Py.Raise _ => false
  end.

(** The body of the [try] block of lines 24-27, started from
    [color = None]. *)
Definition color_try_body (c : rgb_attr) : Py.exc (option rgb_color) :=
  rgb <- get_rgb c ;;
  match rgb with
  | Some ((_ :: _) as tuple) =>                     (* [if rgb:] *)
      r <- getitem tuple 0 ;;
      g <- getitem tuple 1 ;;
      b <- getitem tuple 2 ;;
      col <- RGBColor r g b ;;
      Py.Return (Some col)
  | _ => Py.Return None
  end.

(** Lines 22-29: the colour of one run. *)
Definition run_color (font : Font.t) : option rgb_color :=
  match Font.color font with
  | Some c =>
      if hasattr (get_rgb c)
      then Py.try_except (color_try_body c) None
      else None
  | None => None
  end.

(** [font.size.pt if font.size else None] *)
Definition size_pt (size : option Z) : option Q :=
  match size with
  | Some emu => if (emu =? 0)%Z then None else Some (emu # 12700)%Q
  | None => None
  end.

Definition run_data (run : Run.t) : RunData.t :=
  let font := Run.font run in
  {| RunData.text := Run.text run;
     RunData.bold := Font.bold font;
     RunData.italic := Font.italic font;
     RunData.underline := Font.underline font;
     RunData.size := size_pt (Font.size font);
     RunData.name := Font.name font;
     RunData.color := run_color font |}.

Definition para_data (para : Para.t) : ParaData.t :=
  {| ParaData.is_bullet :=
       (0 <? Para.level para)%Z
       || Py.startswith Py.bullet (Py.strip (Para.text para));
     ParaData.runs := map run_data (Para.runs para) |}.

Definition extract_text_runs (shape : Shape.t) : list ParaData.t :=
  if negb (Shape.has_text_frame shape) then []
  else map para_data (Shape.text_frame shape).

(** ** [add_text_to_docx] *)

Definition List_Bullet : Py.str := Py.lit "List Bullet".

Definition doc_run (run : RunData.t) : DocRun.t :=
  {| DocRun.text := RunData.text run;
     DocRun.bold := RunData.bold run;
     DocRun.italic := RunData.italic run;
     DocRun.underline := RunData.underline run;
     DocRun.font_size :=
       match RunData.size run with
       | Some pt => if Qeq_bool pt 0%Q then None else Some pt
       | None => None
       end;
     DocRun.font_name :=
       match RunData.name run with
       | Some ((_ :: _) as nm) => Some nm
       | _ => None
       end;
     DocRun.font_color := RunData.color run |}.

(** The paragraph that one iteration of the loop of lines 44-58 leaves in
    the document. *)
Definition doc_para (para : ParaData.t) : Block :=
  Paragraph []
    (if ParaData.is_bullet para then Some List_Bullet else None)
    (map doc_run (ParaData.runs para)).

Definition add_text_to_docx (w : World) (text_content : list ParaData.t)
  : World :=
  fold_left (fun w para => add_block w (doc_para para)) text_content w.

(** ** [process_shape] *)

Definition Chart_Placeholder : Py.str :=
  Py.lit "[Chart Placeholder: Cannot render chart image]".
Definition SmartArt_Placeholder : Py.str := Py.lit "[SmartArt Placeholder]".
Definition Table_Grid : Py.str := Py.lit "Table Grid".

(** [min(5, x)] *)
Definition min5 (x : Q) : Q := if Qle_bool 5%Q x then 5%Q else x.

(** Lines 79-83, with the exact quotient for [img.size[0] / 96];
    [width_inches_float] has the float. *)
Definition width_inches (image : Image.t) : Q :=
  Py.try_except (px <- Image.size0 image ;; Py.Return (min5 (px # 96)%Q)) 3%Q.

(** [f"{image_dir}/image_{slide_num}_{image_count}.{image_format}"] *)
Definition image_filename (image_dir : Py.str) (slide_num image_count : nat)
  (image_format : Py.str) : Py.str :=
  image_dir ++ Py.lit "/image_" ++ Py.str_of_nat slide_num ++ Py.lit "_"
  ++ Py.str_of_nat image_count ++ Py.lit "." ++ image_format.

(** The cell assignments of lines 91-93, in the order they are made, each
    of them returning. *)
Definition table_cells (table : Table.t) : list (nat * nat * Py.str) :=
  flat_map
    (fun '(r_idx, row) =>
       map (fun '(c_idx, cell) => (r_idx, c_idx, cell)) (enumerate row))
    (enumerate (Table.rows table)).

Definition type_is (shape : Shape.t) (code : Z) : bool :=
  match Shape.shape_type shape with
  | Some ty => (ty =? code)%Z
  | None => false
  end.

(** [hasattr(shape, "visible") and not shape.visible] *)
Definition invisible (shape : Shape.t) : bool :=
  match Shape.visible shape with
  | Some v => negb v
  | None => false
  end.

(** Lines 69-104: the dispatch on a shape that is neither invisible nor a
    group, each call on the document returning; [picture_branch] has the
    picture branch with the outcome of line 84. *)
Definition process_leaf (w : World) (shape : Shape.t)
  (slide_num image_count : nat) (image_dir : Py.str) : World * nat :=
  if Shape.has_text_frame shape then
    let text_content := extract_text_runs shape in
    (add_text_to_docx w text_content, image_count)
  else
    match type_is shape 13, Shape.image shape with
    | true, Some image =>
        let image_format := Image.ext image in
        let filename :=
          image_filename image_dir slide_num image_count image_format in
        let w := write_file w filename (Blob (Image.blob image)) in
        let w := add_block w (Picture filename (width_inches image)) in
        (w, image_count + 1)
    | _, _ =>
        if Shape.has_table shape then
          let table := Shape.table shape in
          (add_block w
             (Table (length (Table.rows table)) (Table.columns table)
                Table_Grid (table_cells table)),
           image_count)
        else if type_is shape 3
                && Py.contains (Py.lit "Chart") (Shape.name shape) then
          (add_block w (Paragraph Chart_Placeholder None []), image_count)
        else if Py.contains (Py.lit "SmartArt") (Shape.name shape) then
          let w := add_block w (Paragraph SmartArt_Placeholder None []) in
          if Shape.has_text_frame shape then
            let text_content := extract_text_runs shape in
            (add_text_to_docx w text_content, image_count)
          else (w, image_count)
        else (w, image_count)
    end.

Fixpoint process_shape (w : World) (shape : Shape.t)
  (slide_num image_count : nat) (image_dir : Py.str) {struct shape}
  : World * nat :=
  if invisible shape then (w, image_count)
  else
    match type_is shape 6, Shape.shapes shape with
    | true, Some subshapes =>
        fold_left
          (fun '(w, image_count) subshape =>
             process_shape w subshape slide_num image_count image_dir)
          subshapes (w, image_count)
    | _, _ => process_leaf w shape slide_num image_count image_dir
    end.

(** The loop [for shape in shapes: image_count = process_shape(...)] of
    lines 65-66 and 117-118. *)
Definition process_shapes (w : World) (shapes : list Shape.t)
  (slide_num image_count : nat) (image_dir : Py.str) : World * nat :=
  fold_left
    (fun '(w, image_count) shape =>
       process_shape w shape slide_num image_count image_dir)
    shapes (w, image_count).

(** ** [pptx_to_docx] *)

Definition pptx_to_docx (prs : Presentation) (image_dir : Py.str) : World :=
  let doc := Document in
  let image_count := 0 in
  fst (fold_left
         (fun '(doc, image_count) '(i, slide) =>
            let doc :=
              add_block doc
                (Heading (Py.lit "Slide " ++ Py.str_of_nat (i + 1)) 1) in
            let '(doc, image_count) :=
              process_shapes doc slide (i + 1) image_count image_dir in
            (add_block doc PageBreak, image_count))
         (enumerate prs) (doc, image_count)).

(** ** [pdf_to_docx] *)

(** [f"{image_dir}/page_{i + 1}_img_{j + 1}.png"] *)
Definition img_path (image_dir : Py.str) (i j : nat) : Py.str :=
  image_dir ++ Py.lit "/page_" ++ Py.str_of_nat (i + 1) ++ Py.lit "_img_"
  ++ Py.str_of_nat (j + 1) ++ Py.lit ".png".

(** Lines 145-149: what is saved for one pixmap when the save returns;
    [save_image] tells when it does. *)
Definition save_pixmap (pix : Pixmap.t) : FileData :=
  if (Pixmap.n pix <? 5)%Z then Png pix else PngRGB pix.

(** Lines 132-151: one iteration of the page loop. *)
Definition process_page (pdf : Pdf.t) (image_dir : Py.str) (doc : World)
  (i : nat) (page : Page.t) : World :=
  let doc :=
    add_block doc (Heading (Py.lit "Page " ++ Py.str_of_nat (i + 1)) 1) in
  let text := Page.get_text page in
  let doc :=
    fold_left (fun doc line => add_block doc (Paragraph line None []))
      (Py.split Py.LF text) doc in
  let images := Page.get_images page in
  let doc :=
    fold_left
      (fun doc '(j, xref) =>
         let pix := Pdf.pixmap pdf xref in
         let img_path := img_path image_dir i j in
         let doc := write_file doc img_path (save_pixmap pix) in
         add_block doc (Picture img_path 4%Q))
      (enumerate images) doc in
  add_block doc PageBreak.

Definition pdf_to_docx (pdf : Pdf.t) (image_dir : Py.str) : World :=
  let doc := Document in
  fold_left (fun doc '(i, page) => process_page pdf image_dir doc i page)
    (enumerate (Pdf.pages pdf)) doc.

(** ** What a shape, a slide and a page contribute *)

(** [extend w d]: the world [w] after the appends and writes logged in [d]. *)
Definition extend (w d : World) : World :=
  {| doc := doc w ++ doc d; files := files w ++ files d |}.

(** The blocks, the files and the next image counter that processing one
    shape produces, read off a run on the empty document. *)
Definition shape_blocks (shape : Shape.t) (slide_num image_count : nat)
  (image_dir : Py.str) : list Block :=
  doc (fst (process_shape Document shape slide_num image_count image_dir)).

Definition shape_count (shape : Shape.t) (slide_num image_count : nat)
  (image_dir : Py.str) : nat :=
  snd (process_shape Document shape slide_num image_count image_dir).

(** The contributions of the shapes of a list, one after the other, the
    counter left by each shape handed to the next. *)
Fixpoint slide_contents (shapes : list Shape.t) (slide_num image_count : nat)
  (image_dir : Py.str) : list Block :=
  match shapes with
  | [] => []
  | shape :: rest =>
      shape_blocks shape slide_num image_count image_dir
      ++ slide_contents rest slide_num
           (shape_count shape slide_num image_count image_dir) image_dir
  end.

Fixpoint slide_count (shapes : list Shape.t) (slide_num image_count : nat)
  (image_dir : Py.str) : nat :=
  match shapes with
  | [] => image_count
  | shape :: rest =>
      slide_count rest slide_num
        (shape_count shape slide_num image_count image_dir) image_dir
  end.

(** The document the spec describes for the slides numbered from [i]:
    per slide a heading, the slide's contents, one page break. *)
Fixpoint pptx_layout (slides : list Slide) (i image_count : nat)
  (image_dir : Py.str) : list Block :=
  match slides with
  | [] => []
  | slide :: rest =>
      Heading (Py.lit "Slide " ++ Py.str_of_nat (i + 1)) 1
      :: slide_contents slide (i + 1) image_count image_dir
      ++ PageBreak
      :: pptx_layout rest (S i)
           (slide_count slide (i + 1) image_count image_dir) image_dir
  end.

(** A page's contents: a paragraph per line of text, then a picture per
    image. *)
Definition page_contents (image_dir : Py.str) (i : nat) (page : Page.t)
  : list Block :=
  map (fun line => Paragraph line None []) (Py.split Py.LF (Page.get_text page))
  ++ map (fun '(j, _) => Picture (img_path image_dir i j) 4%Q)
       (enumerate (Page.get_images page)).

Fixpoint pdf_layout (pages : list Page.t) (i : nat) (image_dir : Py.str)
  : list Block :=
  match pages with
  | [] => []
  | page :: rest =>
      Heading (Py.lit "Page " ++ Py.str_of_nat (i + 1)) 1
      :: page_contents image_dir i page
      ++ PageBreak :: pdf_layout rest (S i) image_dir
  end.

(** The files a page's images are saved to, in write order. *)
Definition page_files (pdf : Pdf.t) (image_dir : Py.str) (i : nat)
  (page : Page.t) : list (Py.str * FileData) :=
  map (fun '(j, xref) =>
         (img_path image_dir i j, save_pixmap (Pdf.pixmap pdf xref)))
    (enumerate (Page.get_images page)).

Fixpoint pdf_files (pdf : Pdf.t) (pages : list Page.t) (i : nat)
  (image_dir : Py.str) : list (Py.str * FileData) :=
  match pages with
  | [] => []
  | page :: rest =>
      page_files pdf image_dir i page ++ pdf_files pdf rest (S i) image_dir
  end.

Definition is_page_break (b : Block) : bool :=
  match b with PageBreak => true | _ => false end.

Definition is_heading (b : Block) : bool :=
  match b with Heading _ _ => true | _ => false end.

Definition page_breaks (d : list Block) : nat :=
  length (filter is_page_break d).

(** A block that is neither a heading nor a page break. *)
Definition content_block (b : Block) : Prop :=
  is_page_break b = false /\ is_heading b = false.

(** ** Classification of shapes and colours *)

(** [hasattr(shape, attr)] for an attribute held as an option. *)
Definition present {A} (attr : option A) : bool :=
  match attr with Some _ => true | None => false end.

(** The test of line 64. *)
Definition is_group (shape : Shape.t) : bool :=
  type_is shape 6 && present (Shape.shapes shape).

(** The test of line 73. *)
Definition is_picture (shape : Shape.t) : bool :=
  type_is shape 13 && present (Shape.image shape).

(** The test of line 95. *)
Definition is_chart (shape : Shape.t) : bool :=
  type_is shape 3 && Py.contains (Py.lit "Chart") (Shape.name shape).

(** The test of line 98. *)
Definition is_smartart (shape : Shape.t) : bool :=
  Py.contains (Py.lit "SmartArt") (Shape.name shape).

(** The bullet test as the spec words it: on the paragraph's text as it
    stands. *)
Definition spec_is_bullet (para : Para.t) : bool :=
  (0 <? Para.level para)%Z || Py.startswith Py.bullet (Para.text para).

(** A text that reads: whitespace, then the bullet glyph. *)
Definition bullet_after_whitespace (text : Py.str) : Prop :=
  exists ws rest,
    Forall (fun c => Py.isspace c = true) ws
    /\ text = ws ++ Py.bullet ++ rest.

(** File names that are pairwise distinct and carry image counters from
    [lo] up to, not including, [hi]. *)
Definition counter_names (image_dir : Py.str) (lo hi : nat)
  (names : list Py.str) : Prop :=
  NoDup names
  /\ Forall
       (fun nm => exists slide_num c ext,
          lo <= c < hi /\ nm = image_filename image_dir slide_num c ext)
       names.

(** ** Sample inputs *)

Definition pptx_images : Py.str := Py.lit "pptx_images".
Definition pdf_images : Py.str := Py.lit "pdf_images".

Definition plain_font : Font.t :=
  Font.mk None None None None None None.

Definition no_table : Table.t := Table.mk [] 0.

(** A text box holding the one paragraph [Hi]. *)
Definition text_box : Shape.t :=
  Shape.mk None (Some 17%Z) None true
    [Para.mk 0 (Py.lit "Hi") [Run.mk (Py.lit "Hi") plain_font]]
    None false no_table (Py.lit "TextBox 1").

(** A 960 pixel wide PNG picture. *)
Definition picture : Shape.t :=
  Shape.mk None (Some 13%Z) None false []
    (Some (Image.mk (Py.lit "png") [137; 80; 78; 71]%N (Py.Return 960%Z)))
    false no_table (Py.lit "Picture 2").

(** A picture whose file cannot be reopened. *)
Definition unreadable_picture : Shape.t :=
  Shape.mk None (Some 13%Z) None false []
    (Some (Image.mk (Py.lit "wmf") [215; 205]%N (Py.Raise Py.OSError)))
    false no_table (Py.lit "Picture 3").

(** A group of the text box and the picture, and the same group with its
    visibility flag set to false. *)
Definition group : Shape.t :=
  Shape.mk None (Some 6%Z) (Some [text_box; picture]) false [] None
    false no_table (Py.lit "Group 4").

Definition hidden_group : Shape.t :=
  Shape.mk (Some false) (Some 6%Z) (Some [text_box; picture]) false [] None
    false no_table (Py.lit "Group 4").

(** A connector line: no text frame, picture, table, chart or SmartArt. *)
Definition connector : Shape.t :=
  Shape.mk None (Some 9%Z) None false [] None false no_table
    (Py.lit "Straight Connector 5").

(** A text box a user has named [SmartArt 1], and a graphic frame of the
    same name without a text frame. *)
Definition smartart_text_box : Shape.t :=
  Shape.mk None (Some 17%Z) None true
    [Para.mk 0 (Py.lit "Hi") [Run.mk (Py.lit "Hi") plain_font]]
    None false no_table (Py.lit "SmartArt 1").

Definition smartart_frame : Shape.t :=
  Shape.mk None None None false [] None false no_table (Py.lit "SmartArt 1").

(** The paragraph [Hi] as [add_text_to_docx] writes it. *)
Definition hi_paragraph : Block :=
  Paragraph [] None
    [DocRun.mk (Py.lit "Hi") None None None None None None].

(** A paragraph at level 0 whose text is a space, the bullet glyph and
    [x]. *)
Definition indented_bullet_para : Para.t :=
  Para.mk 0 ([32%N] ++ Py.bullet ++ Py.lit "x") [].

(** An RGBA pixmap (4 components, one of them alpha) and a CMYK pixmap
    with alpha (5 components). *)
Definition rgba_pixmap : Pixmap.t := Pixmap.mk 4 true [255; 0; 0; 128]%N.
Definition cmyka_pixmap : Pixmap.t := Pixmap.mk 5 true [0; 255; 255; 0; 128]%N.

(** A two-slide presentation and a two-page PDF. *)
Definition sample_prs : Presentation :=
  [[text_box; group]; [picture; hidden_group; connector; smartart_frame]].

Definition hello_world_page : Page.t :=
  Page.mk (Py.lit "Hello" ++ [Py.LF] ++ Py.lit "World") [7%Z; 9%Z].

Definition sample_pdf : Pdf.t :=
  Pdf.mk [hello_world_page; Page.mk [] []]
    (fun xref => if (xref =? 7)%Z then rgba_pixmap else cmyka_pixmap).

(** A 2 by 3 table of the texts [A] to [F]. *)
Definition table_shape : Shape.t :=
  Shape.mk None (Some 19%Z) None false [] None true
    (Table.mk [[Py.lit "A"; Py.lit "B"; Py.lit "C"];
               [Py.lit "D"; Py.lit "E"; Py.lit "F"]] 3)
    (Py.lit "Table 7").

(** A chart frame. *)
Definition chart_shape : Shape.t :=
  Shape.mk None (Some 3%Z) None false [] None false no_table
    (Py.lit "Chart 8").

(** ** The steps that can raise *)

(** The definitions above describe a run in which every library call
    returns. The ones below keep the exceptions of three steps: the
    evaluation of a run's colour, the saving of a PDF image and the
    embedding of a picture. *)

(** The body of the [try] block of lines 24-27, on the outcome of
    evaluating [font.color.rgb]. *)
Definition color_try (access : Py.exc (option (list Z)))
  : Py.exc (option rgb_color) :=
  rgb <- access ;;
  match rgb with
  | Some ((_ :: _) as tuple) =>                   (* [if rgb:] *)
      r <- getitem tuple 0 ;;
      g <- getitem tuple 1 ;;
      b <- getitem tuple 2 ;;
      col <- RGBColor r g b ;;
      Py.Return (Some col)
  | _ => Py.Return None
  end.

(** Lines 22-29 for one run: [color_truthy] is the truth value of
    [font.color], [access] the outcome of evaluating [font.color.rgb]. The
    guard of line 23 evaluates the attribute outside the [try]. *)
Definition color_step (color_truthy : bool)
  (access : Py.exc (option (list Z))) : Py.exc (option rgb_color) :=
  if color_truthy then
    has_rgb <- Py.hasattr_strict access ;;
    if has_rgb then Py.Return (Py.try_except (color_try access) None)
    else Py.Return None
  else Py.Return None.

(** The colours that the loops of lines 15-40 extract, for a text frame
    given by the outcome of [font.color.rgb] on each run of each
    paragraph. *)
Definition extract_colors (frame : list (list (Py.exc (option (list Z)))))
  : Py.exc (list (list (option rgb_color))) :=
  Py.mapM (Py.mapM (color_step true)) frame.

(** The components of a pixmap's colourspace: [pix.n - pix.alpha]. *)
Definition colorspace_n (pix : Pixmap.t) : Z :=
  (Pixmap.n pix - if Pixmap.alpha pix then 1 else 0)%Z.

(** [pix.save(path)] for a [.png] path: a colourspace of more than 3
    components is refused with [ValueError]. *)
Definition pix_save (pix : Pixmap.t) : Py.exc FileData :=
  if (3 <? colorspace_n pix)%Z then Py.Raise Py.ValueError
  else Py.Return (Png pix).

(** Lines 145-149 with the outcome of the save; the pixmap made by
    [fitz.Pixmap(fitz.csRGB, pix)] is RGB and can be saved. *)
Definition save_image (pix : Pixmap.t) : Py.exc FileData :=
  if (Pixmap.n pix <? 5)%Z then pix_save pix
  else Py.Return (PngRGB pix).

(** A Python number: an [int] or a [float]. *)
Inductive number :=
| Int (z : Z)
| Float (x : Q).

(** [Inches(x)] of [docx.shared], in EMU: [int(x * 914400)], the product
    of a float being rounded to the nearest float and then truncated;
    [OverflowError] when that product is not finite. *)
Definition Inches (x : number) : Py.exc Z :=
  match x with
  | Int z => Py.Return (z * 914400)%Z
  | Float q =>
      y <- Py.true_div (Qnum q * 914400) (Zpos (Qden q)) ;;
      Py.Return (Z.quot (Qnum y) (Zpos (Qden y)))
  end.

(** Lines 79-83 in floats: [min(5, img.size[0] / 96)], or 3 when the
    [try] block raises. *)
Definition width_inches_float (image : Image.t) : number :=
  Py.try_except
    (px <- Image.size0 image ;;
     x <- Py.true_div px 96 ;;
     Py.Return (if Qle_bool 5%Q x then Int 5 else Float x))
    (Int 3).

(** Lines 74-85 with the outcome of line 84: [docx_reads] tells how
    [doc.add_picture] takes a file holding the given bytes. The file is
    written first; the block and the new counter exist only when line 84
    returns. *)
Definition picture_branch (docx_reads : list N -> Py.exc unit) (w : World)
  (image : Image.t) (slide_num image_count : nat) (image_dir : Py.str)
  : World * Py.exc nat :=
  let image_format := Image.ext image in
  let filename :=
    image_filename image_dir slide_num image_count image_format in
  let w := write_file w filename (Blob (Image.blob image)) in
  let width_inches := width_inches_float image in
  match (emu <- Inches width_inches ;;
         _ <- docx_reads (Image.blob image) ;;
         Py.Return emu) with
  | Py.Return emu =>
      (add_block w (Picture filename (emu # 914400)%Q),
       Py.Return (image_count + 1))
  | Py.Raise e => (w, Py.Raise e)
  end.

(** A text that [doc_table.cell(r, c).text = ...] accepts: tabs, line
    feeds, carriage returns and the code points from U+0020 up to the
    surrogates. *)
Definition cell_text_ok (text : Py.str) : Prop :=
  Forall
    (fun c => c = 9 \/ c = 10 \/ c = 13 \/ (32 <= c /\ c < 55296))%N text.

(** A CMYK pixmap without alpha (4 components). *)
Definition cmyk_pixmap : Pixmap.t := Pixmap.mk 4 false [0; 255; 255; 0]%N.

(** A paragraph of three runs: a red one, one whose [font.color.rgb]
    raises [ValueError] (an [srgbClr] value that is not hexadecimal), and
    one without RGB colour. *)
Definition bad_hex_frame : list (list (Py.exc (option (list Z)))) :=
  [[Py.Return (Some [255; 0; 0]%Z); Py.Raise Py.ValueError;
    Py.Raise Py.AttributeError]].

(** A reader that takes a file starting with the PNG signature and
    refuses any other. *)
Definition png_reader (bytes : list N) : Py.exc unit :=
  if Py.eqb (firstn 8 bytes) [137; 80; 78; 71; 13; 10; 26; 10]%N
  then Py.Return tt
  else Py.Raise Py.UnrecognizedImageError.

(** A picture that measures 98 pixels across. *)
Definition narrow_image : Image.t :=
  Image.mk (Py.lit "png") [137; 80; 78; 71; 13; 10; 26; 10]%N
    (Py.Return 98%Z).

(** ** The dispatcher and the command line *)

(** What the converter is run against: the case mapping of non-ASCII
    strings and the two readers of input files. *)
Module Host.
Record t := mk {
  unicode_lower : Py.str -> Py.str;
  open_pptx : Py.str -> Py.exc Presentation;  (* [Presentation(pptx_path)] *)
  open_pdf : Py.str -> Py.exc Pdf.t           (* [fitz.open(pdf_path)] *)
}.
End Host.

(** [os.path.splitext(p)] of [posixpath]: the extension starts at the last
    dot of [p], when that dot comes after the last slash and after a
    character of the file name that is not a dot. *)
Definition splitext (p : Py.str) : Py.str * Py.str :=
  let sepIndex := Py.rfind 47 p in
  match Py.rfind 46 p with
  | Some dotIndex =>
      if match sepIndex with Some s => s <? dotIndex | None => true end then
        let filenameIndex :=
          match sepIndex with Some s => S s | None => 0 end in
        if existsb (fun ch => negb (N.eqb ch 46))
             (firstn (dotIndex - filenameIndex) (skipn filenameIndex p))
        then (firstn dotIndex p, skipn dotIndex p)
        else (p, [])
      else (p, [])
  | None => (p, [])
  end.

(** [os.path.splitext(p)] of [ntpath]: as [splitext], the last separator
    being the last backslash or slash. *)
Definition splitext_nt (p : Py.str) : Py.str * Py.str :=
  let sepIndex :=
    match Py.rfind 92 p, Py.rfind 47 p with
    | Some s, Some s' => Some (Nat.max s s')
    | Some s, None => Some s
    | None, altsepIndex => altsepIndex
    end in
  match Py.rfind 46 p with
  | Some dotIndex =>
      if match sepIndex with Some s => s <? dotIndex | None => true end then
        let filenameIndex :=
          match sepIndex with Some s => S s | None => 0 end in
        if existsb (fun ch => negb (N.eqb ch 46))
             (firstn (dotIndex - filenameIndex) (skipn filenameIndex p))
        then (firstn dotIndex p, skipn dotIndex p)
        else (p, [])
      else (p, [])
  | None => (p, [])
  end.

(** How a run of the program ends. *)
Inductive Termination :=
| Finished
| SystemExit (status : Z)
| Traceback (e : Py.exn).

(** What a run of the program leaves behind. *)
Record Effects := mkEffects {
  ensured_dirs : list Py.str;                 (* lines 110-111, 125-126 *)
  image_files : list (Py.str * FileData);
  saved_docx : list (Py.str * list Block);    (* [doc.save(docx_path)] *)
  stdout : list Py.str;
  ended : Termination
}.

Definition check_mark : Py.str := [91; 10003; 93]%N.

(** Lines 106-122, from the call [pptx_to_docx(pptx_path, docx_path)]. *)
Definition pptx_to_docx_call (host : Host.t) (pptx_path docx_path : Py.str)
  (image_dir : Py.str) : Effects :=
  match Host.open_pptx host pptx_path with
  | Py.Raise e => mkEffects [] [] [] [] (Traceback e)
  | Py.Return prs =>
      let w := pptx_to_docx prs image_dir in
      mkEffects [image_dir] (files w) [(docx_path, doc w)]
        [check_mark ++ Py.lit " Converted PPTX '" ++ pptx_path
         ++ Py.lit "' to '" ++ docx_path
         ++ Py.lit "' with images saved in '" ++ image_dir ++ Py.lit "/'."]
        Finished
  end.

(** Lines 124-154, from the call [pdf_to_docx(pdf_path, docx_path)]. *)
Definition pdf_to_docx_call (host : Host.t) (pdf_path docx_path : Py.str)
  (image_dir : Py.str) : Effects :=
  match Host.open_pdf host pdf_path with
  | Py.Raise e => mkEffects [image_dir] [] [] [] (Traceback e)
  | Py.Return pdf =>
      let w := pdf_to_docx pdf image_dir in
      mkEffects [image_dir] (files w) [(docx_path, doc w)]
        [check_mark ++ Py.lit " Converted PDF '" ++ pdf_path
         ++ Py.lit "' to '" ++ docx_path
         ++ Py.lit "' with images saved in '" ++ image_dir ++ Py.lit "/'."]
        Finished
  end.

Definition Unsupported : Py.str :=
  Py.lit "Unsupported file type. Only .pptx and .pdf are allowed.".

(** Lines 162-164. *)
Definition rejected : Effects :=
  mkEffects [] [] [] [Unsupported] (SystemExit 1).

Definition convert_to_docx (host : Host.t) (input_path output_path : Py.str)
  : Effects :=
  let ext := Py.lower (Host.unicode_lower host) (snd (splitext input_path)) in
  if Py.eqb ext (Py.lit ".pptx") then
    pptx_to_docx_call host input_path output_path (Py.lit "pptx_images")
  else if Py.eqb ext (Py.lit ".pdf") then
    pdf_to_docx_call host input_path output_path (Py.lit "pdf_images")
  else rejected.

(** Lines 170-172: the output path [convert_to_docx] is called with. *)
Definition output_path_for (input_path output_path : Py.str) : Py.str :=
  match output_path with
  | [] => fst (splitext input_path) ++ Py.lit ".docx"
  | _ :: _ => output_path
  end.

(** Lines 166-174, on the two lines read from standard input. *)
Definition main (host : Host.t) (input_line output_line : Py.str) : Effects :=
  let input_path := Py.strip input_line in
  let output_path := Py.strip output_line in
  let output_path := output_path_for input_path output_path in
  let e := convert_to_docx host input_path output_path in
  mkEffects (ensured_dirs e) (image_files e) (saved_docx e)
    ([Py.lit "Enter the path to the input .pptx or .pdf file: ";
      Py.lit
        "Enter the desired output .docx filename (leave blank for default): "]
     ++ stdout e)
    (ended e).

(** ** Views of a shape tree and of a document *)

(** The shapes of a tree that reach the dispatch of lines 69-104, in
    document order: invisible shapes are left out with all they contain,
    groups are replaced by what their children give. *)
Fixpoint leaves (shape : Shape.t) : list Shape.t :=
  if invisible shape then []
  else
    match type_is shape 6, Shape.shapes shape with
    | true, Some subshapes => flat_map leaves subshapes
    | _, _ => [shape]
    end.

Definition picture_paths (d : list Block) : list Py.str :=
  flat_map (fun b => match b with Picture path _ => [path] | _ => [] end) d.

Definition heading_texts (d : list Block) : list Py.str :=
  flat_map (fun b => match b with Heading text _ => [text] | _ => [] end) d.

(** The texts given to [add_paragraph], in order. *)
Definition paragraph_texts (d : list Block) : list Py.str :=
  flat_map (fun b => match b with Paragraph text _ _ => [text] | _ => [] end)
    d.

(** A picture no wider than 5 inches, or a block that is no picture. *)
Definition at_most_5_inches (b : Block) : Prop :=
  match b with
  | Picture _ width => (width <= 5)%Q
  | _ => True
  end.

(** Names whose image counters run [lo], [lo + 1], ... in list order and
    whose slide numbers lie in [first .. last]. *)
Definition numbered_from (image_dir : Py.str) (first last lo : nat)
  (names : list Py.str) : Prop :=
  forall j nm,
    nth_error names j = Some nm ->
    exists slide_num ext,
      first <= slide_num <= last
      /\ nm = image_filename image_dir slide_num (lo + j) ext.

(** Lines 116-119: one iteration of the slide loop, on the document and
    the image counter. *)
Definition slide_step (image_dir : Py.str)
  : World * nat -> nat * Slide -> World * nat :=
  fun '(doc, image_count) '(i, slide) =>
    let doc :=
      add_block doc (Heading (Py.lit "Slide " ++ Py.str_of_nat (i + 1)) 1) in
    let '(doc, image_count) :=
      process_shapes doc slide (i + 1) image_count image_dir in
    (add_block doc PageBreak, image_count).

(** A host whose two readers return the sample inputs. *)
Definition sample_host : Host.t :=
  Host.mk (fun s => s) (fun _ => Py.Return sample_prs)
    (fun _ => Py.Return sample_pdf).

(** * Properties *)

(** ** Lists and loops *)

Lemma enumerate_from_cons {A} (k : nat) (x : A) (l : list A) :
  combine (seq k (length (x :: l))) (x :: l)
  = (k, x) :: combine (seq (S k) (length l)) l.
Proof. reflexivity. Qed.

(** ** The document and the image directory only grow *)

Lemma extend_Document_r w : extend w Document = w.
Proof.
  destruct w; unfold extend; simpl. now rewrite !app_nil_r.
Qed.

Lemma extend_Document_l w : extend Document w = w.
Proof. now destruct w. Qed.

Lemma extend_assoc a b c : extend (extend a b) c = extend a (extend b c).
Proof. unfold extend; simpl. now rewrite !app_assoc. Qed.

Lemma add_block_extend w d b :
  add_block (extend w d) b = extend w (add_block d b).
Proof. unfold add_block, extend; simpl. now rewrite app_assoc. Qed.

Lemma write_file_extend w d p x :
  write_file (extend w d) p x = extend w (write_file d p x).
Proof. unfold write_file, extend; simpl. now rewrite app_assoc. Qed.

Lemma add_block_alt w b : add_block w b = extend w (add_block Document b).
Proof. now rewrite <- add_block_extend, extend_Document_r. Qed.

Lemma write_file_alt w p x :
  write_file w p x = extend w (write_file Document p x).
Proof. now rewrite <- write_file_extend, extend_Document_r. Qed.

Lemma add_text_to_docx_spec text_content w :
  add_text_to_docx w text_content
  = extend w {| doc := map doc_para text_content; files := [] |}.
Proof.
  unfold add_text_to_docx. revert w.
  induction text_content as [|para rest IH]; intro w; simpl.
  - symmetry. apply extend_Document_r.
  - rewrite IH. unfold add_block, extend; simpl.
    now rewrite <- !app_assoc, app_nil_r.
Qed.

Lemma process_shape_eq w shape slide_num image_count image_dir :
  process_shape w shape slide_num image_count image_dir
  = if invisible shape then (w, image_count)
    else match type_is shape 6, Shape.shapes shape with
         | true, Some subshapes =>
             process_shapes w subshapes slide_num image_count image_dir
         | _, _ => process_leaf w shape slide_num image_count image_dir
         end.
Proof. destruct shape; reflexivity. Qed.

Lemma process_shapes_cons w shape rest slide_num image_count image_dir :
  process_shapes w (shape :: rest) slide_num image_count image_dir
  = let '(w', ic') :=
      process_shape w shape slide_num image_count image_dir in
    process_shapes w' rest slide_num ic' image_dir.
Proof.
  unfold process_shapes; simpl.
  now destruct (process_shape w shape slide_num image_count image_dir).
Qed.

Lemma process_shapes_app w l1 l2 slide_num image_count image_dir :
  process_shapes w (l1 ++ l2) slide_num image_count image_dir
  = let '(w', ic') := process_shapes w l1 slide_num image_count image_dir in
    process_shapes w' l2 slide_num ic' image_dir.
Proof.
  unfold process_shapes. rewrite fold_left_app.
  now destruct (fold_left _ l1 (w, image_count)).
Qed.

Lemma process_leaf_frame w shape slide_num image_count image_dir :
  process_leaf w shape slide_num image_count image_dir
  = (extend w
       (fst (process_leaf Document shape slide_num image_count image_dir)),
     snd (process_leaf Document shape slide_num image_count image_dir)).
Proof.
  unfold process_leaf.
  destruct (Shape.has_text_frame shape).
  - simpl. rewrite !add_text_to_docx_spec. now rewrite extend_Document_l.
  - destruct (type_is shape 13), (Shape.image shape);
      repeat match goal with
        | |- context [if ?c then _ else _] => destruct c
        end;
      simpl;
      rewrite ?(add_block_alt (write_file _ _ _)), ?(write_file_alt w),
        ?(add_block_alt w), ?extend_assoc, ?extend_Document_l,
        ?extend_Document_r;
      reflexivity.
Qed.

(** The frame property of a loop over shapes, from that of its shapes. *)
Lemma process_shapes_frame_of shapes slide_num image_dir :
  Forall
    (fun shape => forall w image_count,
       process_shape w shape slide_num image_count image_dir
       = (extend w (fst (process_shape Document shape slide_num image_count
                           image_dir)),
          snd (process_shape Document shape slide_num image_count image_dir)))
    shapes ->
  forall w image_count,
    process_shapes w shapes slide_num image_count image_dir
    = (extend w (fst (process_shapes Document shapes slide_num image_count
                        image_dir)),
       snd (process_shapes Document shapes slide_num image_count image_dir)).
Proof.
  induction 1 as [|shape rest Hshape _ IH]; intros w image_count.
  - simpl. now rewrite extend_Document_r.
  - rewrite !process_shapes_cons.
    rewrite (Hshape w).
    destruct (process_shape Document shape slide_num image_count image_dir)
      as [d ic'] eqn:E.
    simpl. rewrite (IH (extend w d)), (IH d). simpl.
    now rewrite extend_assoc.
Qed.

Lemma process_shape_frame shape : forall w slide_num image_count image_dir,
  process_shape w shape slide_num image_count image_dir
  = (extend w (fst (process_shape Document shape slide_num image_count
                      image_dir)),
     snd (process_shape Document shape slide_num image_count image_dir)).
Proof.
  induction shape as [v ty shs htf tf img htab tab nm IH] using shape_ind.
  intros w slide_num image_count image_dir.
  rewrite !process_shape_eq.
  destruct (invisible _).
  - simpl. now rewrite extend_Document_r.
  - destruct (type_is _ 6); [destruct shs as [subshapes|]|];
      simpl Shape.shapes; cbv iota;
      try apply process_leaf_frame.
    apply process_shapes_frame_of.
    eapply Forall_impl; [|exact IH]. simpl. intros a Ha w0 ic0. apply Ha.
Qed.

Lemma process_shapes_frame shapes w slide_num image_count image_dir :
  process_shapes w shapes slide_num image_count image_dir
  = (extend w (fst (process_shapes Document shapes slide_num image_count
                      image_dir)),
     snd (process_shapes Document shapes slide_num image_count image_dir)).
Proof.
  apply process_shapes_frame_of. apply Forall_forall. intros shape _ w0 ic0.
  apply process_shape_frame.
Qed.

(** ** The layout of the output document *)

Lemma process_shapes_layout shapes : forall slide_num image_count image_dir,
  process_shapes Document shapes slide_num image_count image_dir
  = ({| doc := slide_contents shapes slide_num image_count image_dir;
        files := files (fst (process_shapes Document shapes slide_num
                               image_count image_dir)) |},
     slide_count shapes slide_num image_count image_dir).
Proof.
  induction shapes as [|shape rest IH]; intros slide_num image_count image_dir.
  - reflexivity.
  - rewrite process_shapes_cons. simpl slide_contents. simpl slide_count.
    unfold shape_blocks, shape_count.
    destruct (process_shape Document shape slide_num image_count image_dir)
      as [d ic'].
    simpl fst; simpl snd.
    rewrite process_shapes_frame, IH. reflexivity.
Qed.

Lemma shape_blocks_group v ty subshapes htf tf img htab tab nm
  slide_num image_count image_dir :
  let shape := Shape.mk v ty (Some subshapes) htf tf img htab tab nm in
  invisible shape = false -> type_is shape 6 = true ->
  shape_blocks shape slide_num image_count image_dir
  = slide_contents subshapes slide_num image_count image_dir.
Proof.
  intros shape Hv Hg. unfold shape_blocks.
  rewrite process_shape_eq, Hv, Hg. simpl Shape.shapes. cbv iota.
  now rewrite process_shapes_layout.
Qed.

Lemma Forall_content_map_para (l : list ParaData.t) :
  Forall content_block (map doc_para l).
Proof.
  apply Forall_forall. intros b Hb. apply in_map_iff in Hb.
  destruct Hb as [p [<- _]]. now split.
Qed.

Lemma process_leaf_content shape slide_num image_count image_dir :
  Forall content_block
    (doc (fst (process_leaf Document shape slide_num image_count image_dir))).
Proof.
  unfold process_leaf.
  destruct (Shape.has_text_frame shape).
  - simpl. rewrite add_text_to_docx_spec. simpl.
    apply Forall_content_map_para.
  - destruct (type_is shape 13), (Shape.image shape);
      repeat match goal with
        | |- context [if ?c then _ else _] => destruct c
        end;
      simpl; repeat constructor.
Qed.

Lemma slide_contents_content_of shapes slide_num image_dir :
  Forall
    (fun shape => forall image_count,
       Forall content_block
         (shape_blocks shape slide_num image_count image_dir))
    shapes ->
  forall image_count,
    Forall content_block (slide_contents shapes slide_num image_count image_dir).
Proof.
  induction 1 as [|shape rest Hshape _ IH]; intro image_count; simpl.
  - constructor.
  - apply Forall_app. split; [apply Hshape | apply IH].
Qed.

Lemma shape_blocks_content shape : forall slide_num image_count image_dir,
  Forall content_block (shape_blocks shape slide_num image_count image_dir).
Proof.
  induction shape as [v ty shs htf tf img htab tab nm IH] using shape_ind.
  intros slide_num image_count image_dir.
  set (shape := Shape.mk v ty shs htf tf img htab tab nm).
  destruct (invisible shape) eqn:Hv.
  - unfold shape_blocks. rewrite process_shape_eq, Hv. constructor.
  - destruct (type_is shape 6) eqn:Hg; [destruct shs as [subshapes|]|].
    + unfold shape. rewrite shape_blocks_group by assumption.
      apply slide_contents_content_of.
      eapply Forall_impl; [|exact IH]. simpl. intros a Ha ic. apply Ha.
    + unfold shape_blocks. rewrite process_shape_eq, Hv, Hg.
      apply process_leaf_content.
    + unfold shape_blocks. rewrite process_shape_eq, Hv, Hg.
      apply process_leaf_content.
Qed.

Lemma slide_contents_content shapes slide_num image_count image_dir :
  Forall content_block (slide_contents shapes slide_num image_count image_dir).
Proof.
  apply slide_contents_content_of. apply Forall_forall. intros shape _ ic.
  apply shape_blocks_content.
Qed.

Lemma page_breaks_app d1 d2 :
  page_breaks (d1 ++ d2) = page_breaks d1 + page_breaks d2.
Proof. unfold page_breaks. now rewrite filter_app, length_app. Qed.

Lemma page_breaks_content d : Forall content_block d -> page_breaks d = 0.
Proof.
  unfold page_breaks. induction 1 as [|b d [Hb _] _ IH]; simpl.
  - reflexivity.
  - now rewrite Hb.
Qed.

(** The slide loop of [pptx_to_docx], entered at slide index [i]. *)
Lemma pptx_loop slides : forall i w image_count image_dir,
  fst (fold_left
         (fun '(doc, image_count) '(i, slide) =>
            let doc :=
              add_block doc
                (Heading (Py.lit "Slide " ++ Py.str_of_nat (i + 1)) 1) in
            let '(doc, image_count) :=
              process_shapes doc slide (i + 1) image_count image_dir in
            (add_block doc PageBreak, image_count))
         (combine (seq i (length slides)) slides) (w, image_count))
  = extend w
      {| doc := pptx_layout slides i image_count image_dir;
         files :=
           files (fst (fold_left
             (fun '(doc, image_count) '(i, slide) =>
                let doc :=
                  add_block doc
                    (Heading (Py.lit "Slide " ++ Py.str_of_nat (i + 1)) 1) in
                let '(doc, image_count) :=
                  process_shapes doc slide (i + 1) image_count image_dir in
                (add_block doc PageBreak, image_count))
             (combine (seq i (length slides)) slides)
             (Document, image_count))) |}.
Proof.
  induction slides as [|slide rest IH]; intros i w image_count image_dir.
  - simpl. now rewrite extend_Document_r.
  - rewrite enumerate_from_cons. simpl fold_left.
    rewrite (process_shapes_frame slide (add_block w _)).
    rewrite (process_shapes_frame slide (add_block Document _)).
    rewrite process_shapes_layout. simpl fst; simpl snd.
    rewrite IH. rewrite (IH _ (add_block (extend (add_block Document _) _) _)).
    unfold extend, add_block; simpl. f_equal.
    + now rewrite <- !app_assoc.
    + now rewrite <- !app_assoc.
Qed.

Lemma pptx_to_docx_layout prs image_dir :
  doc (pptx_to_docx prs image_dir) = pptx_layout prs 0 0 image_dir.
Proof.
  unfold pptx_to_docx, enumerate. now rewrite pptx_loop.
Qed.

Lemma page_breaks_pptx_layout slides : forall i image_count image_dir,
  page_breaks (pptx_layout slides i image_count image_dir) = length slides.
Proof.
  induction slides as [|slide rest IH]; intros i image_count image_dir.
  - reflexivity.
  - simpl pptx_layout.
    change (Heading ?t ?l :: ?x) with ([Heading t l] ++ x).
    rewrite !page_breaks_app.
    change (PageBreak :: ?x) with ([PageBreak] ++ x).
    rewrite page_breaks_app, IH.
    rewrite (page_breaks_content (slide_contents_content _ _ _ _)).
    reflexivity.
Qed.

Lemma pdf_lines_loop lines w :
  fold_left (fun doc line => add_block doc (Paragraph line None [])) lines w
  = extend w
      {| doc := map (fun line => Paragraph line None []) lines; files := [] |}.
Proof.
  revert w. induction lines as [|line rest IH]; intro w; simpl.
  - now rewrite extend_Document_r.
  - rewrite IH. unfold extend, add_block; simpl.
    now rewrite <- !app_assoc, app_nil_r.
Qed.

(** The image loop of a page, entered at image index [j]. *)
Lemma pdf_images_loop pdf image_dir i images : forall j w,
  fold_left
    (fun doc '(j, xref) =>
       let pix := Pdf.pixmap pdf xref in
       let img_path := img_path image_dir i j in
       let doc := write_file doc img_path (save_pixmap pix) in
       add_block doc (Picture img_path 4%Q))
    (combine (seq j (length images)) images) w
  = extend w
      {| doc :=
           map (fun '(j, _) => Picture (img_path image_dir i j) 4%Q)
             (combine (seq j (length images)) images);
         files :=
           map (fun '(j, xref) =>
                  (img_path image_dir i j, save_pixmap (Pdf.pixmap pdf xref)))
             (combine (seq j (length images)) images) |}.
Proof.
  induction images as [|xref rest IH]; intros j w.
  - simpl. now rewrite extend_Document_r.
  - rewrite enumerate_from_cons. simpl fold_left. rewrite IH.
    unfold extend, add_block, write_file; simpl.
    now rewrite <- !app_assoc.
Qed.

Lemma process_page_spec pdf image_dir w i page :
  process_page pdf image_dir w i page
  = extend w
      {| doc :=
           Heading (Py.lit "Page " ++ Py.str_of_nat (i + 1)) 1
           :: page_contents image_dir i page ++ [PageBreak];
         files := page_files pdf image_dir i page |}.
Proof.
  unfold process_page, page_contents, page_files, enumerate.
  rewrite pdf_lines_loop, pdf_images_loop.
  unfold extend, add_block; simpl.
  rewrite <- ?app_assoc, ?app_nil_r. reflexivity.
Qed.

Lemma pdf_loop pdf image_dir pages : forall i w,
  fold_left (fun doc '(i, page) => process_page pdf image_dir doc i page)
    (combine (seq i (length pages)) pages) w
  = extend w
      {| doc := pdf_layout pages i image_dir;
         files := pdf_files pdf pages i image_dir |}.
Proof.
  induction pages as [|page rest IH]; intros i w.
  - simpl. now rewrite extend_Document_r.
  - rewrite enumerate_from_cons. simpl fold_left.
    rewrite IH, process_page_spec.
    unfold extend; simpl. rewrite <- !app_assoc. simpl.
    now rewrite <- !app_assoc.
Qed.

Lemma pdf_to_docx_spec pdf image_dir :
  pdf_to_docx pdf image_dir
  = {| doc := pdf_layout (Pdf.pages pdf) 0 image_dir;
       files := pdf_files pdf (Pdf.pages pdf) 0 image_dir |}.
Proof.
  unfold pdf_to_docx, enumerate. now rewrite pdf_loop.
Qed.

Lemma page_contents_content image_dir i page :
  Forall content_block (page_contents image_dir i page).
Proof.
  unfold page_contents. apply Forall_app. split; apply Forall_forall;
    intros b Hb; apply in_map_iff in Hb; destruct Hb as [x [<- _]].
  - now split.
  - destruct x. now split.
Qed.

Lemma page_breaks_pdf_layout pages : forall i image_dir,
  page_breaks (pdf_layout pages i image_dir) = length pages.
Proof.
  induction pages as [|page rest IH]; intros i image_dir.
  - reflexivity.
  - simpl pdf_layout.
    change (Heading ?t ?l :: ?x) with ([Heading t l] ++ x).
    rewrite !page_breaks_app.
    change (PageBreak :: ?x) with ([PageBreak] ++ x).
    rewrite page_breaks_app, IH.
    rewrite (page_breaks_content (page_contents_content _ _ _)).
    reflexivity.
Qed.

(** C3. The document written for a presentation (for a PDF) is, slide by
    slide (page by page), a heading, the contents of the slide's shapes
    (the page's lines, then its images) in source order, and one page
    break; the contents hold no heading and no page break, so the page
    breaks of the document are as many as the slides (the pages). *)
Theorem C3_heading_contents_page_break :
  forall (prs : Presentation) (pdf : Pdf.t) (image_dir : Py.str),
    (doc (pptx_to_docx prs image_dir) = pptx_layout prs 0 0 image_dir
     /\ page_breaks (doc (pptx_to_docx prs image_dir)) = length prs
     /\ forall slide slide_num image_count,
          Forall content_block
            (slide_contents slide slide_num image_count image_dir))
    /\
    (doc (pdf_to_docx pdf image_dir) = pdf_layout (Pdf.pages pdf) 0 image_dir
     /\ page_breaks (doc (pdf_to_docx pdf image_dir)) = length (Pdf.pages pdf)
     /\ forall i page, Forall content_block (page_contents image_dir i page)).
Proof.
  intros prs pdf image_dir. split; repeat split.
  - apply pptx_to_docx_layout.
  - rewrite pptx_to_docx_layout. apply page_breaks_pptx_layout.
  - intros. apply slide_contents_content.
  - now rewrite pdf_to_docx_spec.
  - rewrite pdf_to_docx_spec. apply page_breaks_pdf_layout.
  - intros. apply page_contents_content.
Qed.

Lemma C3_sample_witness :
  page_breaks (doc (pptx_to_docx sample_prs pptx_images)) = 2
  /\ page_breaks (doc (pdf_to_docx sample_pdf pdf_images)) = 2.
Proof.
  destruct (C3_heading_contents_page_break sample_prs sample_pdf pptx_images)
    as [[_ [Hpptx _]] _].
  destruct (C3_heading_contents_page_break sample_prs sample_pdf pdf_images)
    as [_ [_ [Hpdf _]]].
  split; [exact Hpptx | exact Hpdf].
Defined.

(** ** The shape processor *)

Lemma type_is_13_not_6 shape : type_is shape 13 = true -> type_is shape 6 = false.
Proof.
  unfold type_is. destruct (Shape.shape_type shape) as [ty|]; [|discriminate].
  intro H. apply Z.eqb_eq in H. now subst.
Qed.

Lemma process_shape_leaf w shape slide_num image_count image_dir :
  invisible shape = false -> is_group shape = false ->
  process_shape w shape slide_num image_count image_dir
  = process_leaf w shape slide_num image_count image_dir.
Proof.
  intros Hv Hg. rewrite process_shape_eq, Hv. unfold is_group in Hg.
  destruct (type_is shape 6), (Shape.shapes shape); try reflexivity.
  discriminate.
Qed.

(** C8. A shape whose visibility flag is false leaves the document and the
    image directory as they were and returns the image counter it was
    given, whatever the shape holds or contains. *)
Theorem C8_invisible_shape_is_skipped :
  forall (w : World) (shape : Shape.t) (slide_num image_count : nat)
         (image_dir : Py.str),
    Shape.visible shape = Some false ->
    process_shape w shape slide_num image_count image_dir = (w, image_count).
Proof.
  intros w shape slide_num image_count image_dir Hv.
  rewrite process_shape_eq. unfold invisible. now rewrite Hv.
Qed.

Lemma C8_hidden_group_witness :
  Shape.visible hidden_group = Some false
  /\ process_shape Document hidden_group 1 0 pptx_images = (Document, 0).
Proof.
  split.
  - reflexivity.
  - apply (C8_invisible_shape_is_skipped Document hidden_group 1 0 pptx_images).
    reflexivity.
Defined.

(** C10. A shape that is not invisible, not a group, has no text frame, is
    not a picture with image data, has no table, is not a chart and whose
    name does not contain [SmartArt] is dropped: nothing is appended,
    nothing is written, the image counter is unchanged. *)
Theorem C10_unrecognised_shape_is_dropped :
  forall (w : World) (shape : Shape.t) (slide_num image_count : nat)
         (image_dir : Py.str),
    invisible shape = false ->
    is_group shape = false ->
    Shape.has_text_frame shape = false ->
    is_picture shape = false ->
    Shape.has_table shape = false ->
    is_chart shape = false ->
    is_smartart shape = false ->
    process_shape w shape slide_num image_count image_dir = (w, image_count).
Proof.
  intros w shape slide_num image_count image_dir Hv Hg Htf Hpic Htab Hch Hsa.
  rewrite process_shape_leaf by assumption.
  unfold process_leaf. rewrite Htf, Htab.
  unfold is_chart in Hch. unfold is_smartart in Hsa. rewrite Hch, Hsa.
  unfold is_picture in Hpic.
  destruct (type_is shape 13), (Shape.image shape); try reflexivity.
  discriminate.
Qed.

Lemma C10_connector_witness :
  process_shape Document connector 1 0 pptx_images = (Document, 0).
Proof.
  apply (C10_unrecognised_shape_is_dropped Document connector 1 0 pptx_images);
    reflexivity.
Defined.

(** C4, as stated, fails on a group whose visibility flag is false: the
    group contributes nothing, while its two children, processed as
    children of the slide, contribute a paragraph and a picture and
    advance the image counter. *)
Lemma C4_hidden_group_counterexample :
  type_is hidden_group 6 = true
  /\ Shape.shapes hidden_group = Some [text_box; picture]
  /\ process_shape Document hidden_group 1 0 pptx_images = (Document, 0)
  /\ snd (process_shapes Document [text_box; picture] 1 0 pptx_images) = 1
  /\ doc (fst (process_shapes Document [text_box; picture] 1 0 pptx_images))
     = [hi_paragraph;
        Picture (Py.lit "pptx_images/image_1_0.png") 5%Q]
  /\ process_shape Document hidden_group 1 0 pptx_images
     <> process_shapes Document [text_box; picture] 1 0 pptx_images.
Proof.
  repeat split; try reflexivity.
  intro H. apply (f_equal snd) in H. vm_compute in H. discriminate.
Qed.

(** C4, amended. A group whose visibility flag is not false contributes
    what its children contribute when processed in its place: processing
    the group, and processing a slide that holds the group, give the same
    document, the same files and the same image counter as processing the
    children directly. *)
Theorem C4_visible_group_is_its_children :
  forall (g : Shape.t) (subshapes : list Shape.t),
    invisible g = false ->
    type_is g 6 = true ->
    Shape.shapes g = Some subshapes ->
    forall (w : World) (slide_num image_count : nat) (image_dir : Py.str),
      process_shape w g slide_num image_count image_dir
      = process_shapes w subshapes slide_num image_count image_dir
      /\ forall before after,
           process_shapes w (before ++ g :: after) slide_num image_count
             image_dir
           = process_shapes w (before ++ subshapes ++ after) slide_num
               image_count image_dir.
Proof.
  intros g subshapes Hv Hty Hsub w slide_num image_count image_dir.
  assert (Hg : forall w ic,
             process_shape w g slide_num ic image_dir
             = process_shapes w subshapes slide_num ic image_dir).
  { intros w0 ic. now rewrite process_shape_eq, Hv, Hty, Hsub. }
  split; [apply Hg|].
  intros before after.
  rewrite !process_shapes_app.
  destruct (process_shapes w before slide_num image_count image_dir)
    as [w1 ic1].
  rewrite process_shapes_cons, Hg, process_shapes_app.
  now destruct (process_shapes w1 subshapes slide_num ic1 image_dir).
Qed.

Lemma C4_group_witness :
  process_shape Document group 1 0 pptx_images
  = process_shapes Document [text_box; picture] 1 0 pptx_images
  /\ forall before after,
       process_shapes Document (before ++ group :: after) 1 0 pptx_images
       = process_shapes Document (before ++ [text_box; picture] ++ after) 1 0
           pptx_images.
Proof.
  apply (C4_visible_group_is_its_children group (subshapes := [text_box; picture]));
    reflexivity.
Defined.

(** C1 at a text box named [SmartArt 1]: the text-frame branch of the
    dispatch is taken first, so the document receives the paragraph of
    the text frame and no placeholder. *)
Theorem C1_smartart_text_box_gets_no_placeholder :
  invisible smartart_text_box = false
  /\ is_group smartart_text_box = false
  /\ is_smartart smartart_text_box = true
  /\ Shape.has_text_frame smartart_text_box = true
  /\ process_shape Document smartart_text_box 1 0 pptx_images
     = ({| doc := [hi_paragraph]; files := [] |}, 0)
  /\ ~ In (Paragraph SmartArt_Placeholder None [])
         (doc (fst (process_shape Document smartart_text_box 1 0 pptx_images))).
Proof.
  repeat split; try reflexivity.
  vm_compute. intros [H|[]]. discriminate.
Qed.

(** The placeholder is written exactly when the SmartArt branch is
    reached, which needs a shape without a text frame. *)
Lemma smartart_without_text_frame w shape slide_num image_count image_dir :
  invisible shape = false -> is_group shape = false ->
  Shape.has_text_frame shape = false -> is_picture shape = false ->
  Shape.has_table shape = false -> is_chart shape = false ->
  is_smartart shape = true ->
  process_shape w shape slide_num image_count image_dir
  = (add_block w (Paragraph SmartArt_Placeholder None []), image_count).
Proof.
  intros Hv Hg Htf Hpic Htab Hch Hsa.
  rewrite process_shape_leaf by assumption.
  unfold process_leaf. rewrite Htf, Htab.
  unfold is_chart in Hch. unfold is_smartart in Hsa. rewrite Hch, Hsa.
  unfold is_picture in Hpic.
  destruct (type_is shape 13), (Shape.image shape); try reflexivity.
  discriminate.
Qed.

Lemma text_frame_shape_gets_text_only w shape slide_num image_count image_dir :
  invisible shape = false -> is_group shape = false ->
  Shape.has_text_frame shape = true ->
  process_shape w shape slide_num image_count image_dir
  = (add_text_to_docx w (extract_text_runs shape), image_count).
Proof.
  intros Hv Hg Htf. rewrite process_shape_leaf by assumption.
  unfold process_leaf. now rewrite Htf.
Qed.

(** ** Stripping whitespace *)

Lemma lstrip_split (s : Py.str) :
  exists ws,
    s = ws ++ Py.lstrip s
    /\ Forall (fun c => Py.isspace c = true) ws
    /\ match Py.lstrip s with
       | [] => True
       | c :: _ => Py.isspace c = false
       end.
Proof.
  induction s as [|c t IH].
  - exists []. simpl. auto.
  - simpl. destruct (Py.isspace c) eqn:Hc.
    + destruct IH as [ws [Heq [Hws Hhd]]].
      exists (c :: ws). repeat split.
      * simpl. now f_equal.
      * now constructor.
      * exact Hhd.
    + exists []. simpl. rewrite Hc. auto.
Qed.

Lemma lstrip_whitespace_prefix (ws : Py.str) (c : N) (rest : Py.str) :
  Forall (fun c => Py.isspace c = true) ws -> Py.isspace c = false ->
  Py.lstrip (ws ++ c :: rest) = c :: rest.
Proof.
  intros Hws Hc. induction Hws as [|a ws Ha _ IH]; simpl.
  - now rewrite Hc.
  - now rewrite Ha.
Qed.

Lemma lstrip_keeps_last (l : Py.str) (c : N) :
  Py.isspace c = false -> exists l', Py.lstrip (l ++ [c]) = l' ++ [c].
Proof.
  intro Hc. induction l as [|a l IH]; simpl.
  - rewrite Hc. now exists [].
  - destruct (Py.isspace a).
    + exact IH.
    + now exists (a :: l).
Qed.

Lemma rstrip_keeps_first (c : N) (r : Py.str) :
  Py.isspace c = false -> exists r', Py.rstrip (c :: r) = c :: r'.
Proof.
  intro Hc. unfold Py.rstrip. simpl rev.
  destruct (@lstrip_keeps_last (rev r) c Hc) as [l' ->].
  rewrite rev_app_distr. simpl. now exists (rev l').
Qed.

Lemma startswith_bullet (s : Py.str) :
  Py.startswith Py.bullet s = true <-> exists rest, s = 8226%N :: rest.
Proof.
  unfold Py.bullet. destruct s as [|c s]; cbn -[N.eqb].
  - split; [discriminate | intros [rest H]; discriminate].
  - rewrite andb_true_r, N.eqb_eq. split.
    + intros <-. now exists s.
    + intros [rest H]. now injection H.
Qed.

Lemma strip_starts_with_bullet (text : Py.str) :
  Py.startswith Py.bullet (Py.strip text) = true
  <-> bullet_after_whitespace text.
Proof.
  unfold Py.strip, bullet_after_whitespace. split.
  - intro H. apply startswith_bullet in H. destruct H as [rest Hrest].
    destruct (lstrip_split text) as [ws [Heq [Hws Hhd]]].
    destruct (Py.lstrip text) as [|c r] eqn:E.
    + discriminate.
    + destruct (@rstrip_keeps_first c r Hhd) as [r' Hr'].
      rewrite Hr' in Hrest. injection Hrest as -> _.
      exists ws, r. now split.
  - intros [ws [rest [Hws ->]]].
    change (Py.bullet ++ rest) with (8226%N :: rest).
    rewrite lstrip_whitespace_prefix by (assumption || reflexivity).
    destruct (@rstrip_keeps_first 8226%N rest eq_refl) as [r' ->].
    apply startswith_bullet. now exists r'.
Qed.

(** ** Bullets *)

(** C5, as stated, fails on a paragraph at level 0 whose text is a space
    followed by the bullet glyph: its text does not start with the glyph,
    yet it is marked as a bullet and written with the list style. *)
Lemma C5_indented_bullet_counterexample :
  Para.level indented_bullet_para = 0%Z
  /\ Py.startswith Py.bullet (Para.text indented_bullet_para) = false
  /\ spec_is_bullet indented_bullet_para = false
  /\ ParaData.is_bullet (para_data indented_bullet_para) = true
  /\ doc_para (para_data indented_bullet_para)
     = Paragraph [] (Some List_Bullet) [].
Proof. repeat split. Qed.

(** C5, amended. A paragraph is marked as a bullet exactly when its level
    is above zero or its text, stripped of surrounding whitespace, starts
    with the bullet glyph, that is, when the text reads whitespace and
    then the glyph; the paragraph written for it carries the style [List
    Bullet] when it is marked and no style otherwise, and a text frame is
    written as one such paragraph per source paragraph, in order. *)
Theorem C5_bullet_after_stripping :
  forall para : Para.t,
    let pd := para_data para in
    (ParaData.is_bullet pd = true
     <-> (0 < Para.level para)%Z
         \/ Py.startswith Py.bullet (Py.strip (Para.text para)) = true)
    /\ (ParaData.is_bullet pd = true
        <-> (0 < Para.level para)%Z
            \/ bullet_after_whitespace (Para.text para))
    /\ doc_para pd
       = Paragraph []
           (if ParaData.is_bullet pd then Some List_Bullet else None)
           (map doc_run (ParaData.runs pd))
    /\ forall (shape : Shape.t) (w : World),
         In para (Shape.text_frame shape) ->
         Shape.has_text_frame shape = true ->
         doc (add_text_to_docx w (extract_text_runs shape))
         = doc w
           ++ map (fun para => doc_para (para_data para))
                (Shape.text_frame shape)
         /\ In (doc_para pd)
              (doc (add_text_to_docx w (extract_text_runs shape))).
Proof.
  intros para pd.
  assert (H1 : ParaData.is_bullet pd = true
               <-> (0 < Para.level para)%Z
                   \/ Py.startswith Py.bullet (Py.strip (Para.text para))
                      = true).
  { unfold pd, para_data; simpl. rewrite orb_true_iff, Z.ltb_lt. tauto. }
  split; [exact H1|]. split; [|split].
  - rewrite H1, strip_starts_with_bullet. tauto.
  - reflexivity.
  - intros shape w Hin Htf.
    assert (Hdoc : doc (add_text_to_docx w (extract_text_runs shape))
                   = doc w ++ map (fun para => doc_para (para_data para))
                                (Shape.text_frame shape)).
    { rewrite add_text_to_docx_spec. unfold extract_text_runs.
      rewrite Htf. simpl. now rewrite map_map. }
    split; [exact Hdoc|].
    rewrite Hdoc. apply in_or_app. right.
    apply in_map_iff. now exists para.
Qed.

Lemma C5_indented_bullet_witness :
  ParaData.is_bullet (para_data indented_bullet_para) = true
  <-> (0 < Para.level indented_bullet_para)%Z
      \/ Py.startswith Py.bullet (Py.strip (Para.text indented_bullet_para))
         = true.
Proof.
  exact (proj1 (C5_bullet_after_stripping indented_bullet_para)).
Defined.

(** ** Lists related by a map *)

Lemma Forall2_map_right {A B} (R : A -> B -> Prop) (f : A -> B) (l : list A) :
  (forall x, R x (f x)) -> Forall2 R l (map f l).
Proof. intro H. induction l; simpl; constructor; auto. Qed.

(** ** File names *)

Lemma digits_are_digits (d : uint) :
  Forall (fun c => Py.isdigit c = true) (Py.digits d).
Proof. induction d; simpl; constructor; auto. Qed.

Lemma digits_inj (d d' : uint) : Py.digits d = Py.digits d' -> d = d'.
Proof.
  revert d'. induction d; destruct d'; simpl; intro H;
    try discriminate; try reflexivity;
    injection H as H; f_equal; auto.
Qed.

Lemma str_of_nat_inj (n n' : nat) :
  Py.str_of_nat n = Py.str_of_nat n' -> n = n'.
Proof.
  intro H. apply Unsigned.to_uint_inj. now apply digits_inj.
Qed.

Lemma not_in_str_of_nat (x : N) (n : nat) :
  Py.isdigit x = false -> ~ In x (Py.str_of_nat n).
Proof.
  intros Hx Hin. unfold Py.str_of_nat in Hin.
  pose proof (digits_are_digits (Nat.to_uint n)) as Hd.
  rewrite Forall_forall in Hd. apply Hd in Hin. congruence.
Qed.

(** Two strings cut at the first occurrence of a separator agree on both
    sides of it. *)
Lemma app_sep_inj (x : N) (l1 l2 r1 r2 : Py.str) :
  ~ In x l1 -> ~ In x l2 -> l1 ++ x :: r1 = l2 ++ x :: r2 ->
  l1 = l2 /\ r1 = r2.
Proof.
  revert l2. induction l1 as [|a l1 IH]; intros [|b l2] H1 H2 H; simpl in *.
  - injection H as ->. auto.
  - injection H as -> _. tauto.
  - injection H as -> _. tauto.
  - injection H as -> H. destruct (IH l2) as [-> ->]; tauto.
Qed.

Lemma image_filename_inj image_dir m c ext m' c' ext' :
  image_filename image_dir m c ext = image_filename image_dir m' c' ext' ->
  m = m' /\ c = c' /\ ext = ext'.
Proof.
  unfold image_filename. intro H.
  apply app_inv_head in H. apply app_inv_head in H.
  change (Py.lit "_" ++ ?X) with (95%N :: X) in H.
  apply app_sep_inj in H; try (apply not_in_str_of_nat; reflexivity).
  destruct H as [Hm H].
  change (Py.lit "." ++ ?X) with (46%N :: X) in H.
  apply app_sep_inj in H; try (apply not_in_str_of_nat; reflexivity).
  destruct H as [Hc He].
  repeat split; auto using str_of_nat_inj.
Qed.

Lemma img_path_inj image_dir i j i' j' :
  img_path image_dir i j = img_path image_dir i' j' -> i = i' /\ j = j'.
Proof.
  unfold img_path. intro H.
  apply app_inv_head in H. apply app_inv_head in H.
  change (Py.lit "_img_" ++ ?X) with (95%N :: Py.lit "img_" ++ X) in H.
  apply app_sep_inj in H; try (apply not_in_str_of_nat; reflexivity).
  destruct H as [Hi H]. apply app_inv_head in H.
  change (Py.lit ".png") with (46%N :: Py.lit "png") in H.
  apply app_sep_inj in H; try (apply not_in_str_of_nat; reflexivity).
  destruct H as [Hj _].
  apply str_of_nat_inj in Hi, Hj. lia.
Qed.

(** ** Image files of a presentation *)

Lemma counter_names_nil image_dir lo hi : counter_names image_dir lo hi [].
Proof. split; constructor. Qed.

Lemma counter_names_app image_dir lo mid hi l1 l2 :
  lo <= mid -> mid <= hi ->
  counter_names image_dir lo mid l1 -> counter_names image_dir mid hi l2 ->
  counter_names image_dir lo hi (l1 ++ l2).
Proof.
  intros Hlo Hhi [Hnd1 Hall1] [Hnd2 Hall2]. split.
  - apply NoDup_app; [assumption..|].
    intros nm Hin1 Hin2.
    rewrite Forall_forall in Hall1, Hall2.
    destruct (Hall1 _ Hin1) as [m1 [c1 [e1 [Hc1 ->]]]].
    destruct (Hall2 _ Hin2) as [m2 [c2 [e2 [Hc2 Heq]]]].
    apply image_filename_inj in Heq. lia.
  - apply Forall_app. split.
    + eapply Forall_impl; [|exact Hall1].
      intros nm [m [c [ext [Hc ->]]]]. exists m, c, ext.
      split; [lia|reflexivity].
    + eapply Forall_impl; [|exact Hall2].
      intros nm [m [c [ext [Hc ->]]]]. exists m, c, ext.
      split; [lia|reflexivity].
Qed.

Lemma process_leaf_files shape slide_num image_count image_dir :
  let r := process_leaf Document shape slide_num image_count image_dir in
  image_count <= snd r
  /\ counter_names image_dir image_count (snd r) (map fst (files (fst r))).
Proof.
  unfold process_leaf.
  destruct (Shape.has_text_frame shape).
  - simpl. rewrite add_text_to_docx_spec. simpl.
    split; [lia | apply counter_names_nil].
  - destruct (type_is shape 13), (Shape.image shape) as [image|];
      repeat match goal with
        | |- context [if ?c then _ else _] => destruct c
        end;
      simpl; try (split; [lia | apply counter_names_nil]).
    split; [lia|]. split.
    + constructor; [intros []|constructor].
    + constructor; [|constructor].
      exists slide_num, image_count, (Image.ext image). split; [lia|reflexivity].
Qed.

Lemma process_shapes_files_of shapes slide_num image_dir :
  Forall
    (fun shape => forall image_count,
       let r := process_shape Document shape slide_num image_count image_dir in
       image_count <= snd r
       /\ counter_names image_dir image_count (snd r)
            (map fst (files (fst r))))
    shapes ->
  forall image_count,
    let r := process_shapes Document shapes slide_num image_count image_dir in
    image_count <= snd r
    /\ counter_names image_dir image_count (snd r) (map fst (files (fst r))).
Proof.
  induction 1 as [|shape rest Hshape _ IH]; intro image_count.
  - simpl. split; [lia | apply counter_names_nil].
  - cbv zeta. rewrite process_shapes_cons.
    specialize (Hshape image_count). cbv zeta in Hshape.
    destruct (process_shape Document shape slide_num image_count image_dir)
      as [d ic'].
    simpl in Hshape. destruct Hshape as [Hle Hnames].
    rewrite process_shapes_frame.
    specialize (IH ic'). cbv zeta in IH.
    destruct (process_shapes Document rest slide_num ic' image_dir)
      as [d' ic''].
    simpl in IH |- *. destruct IH as [Hle' Hnames'].
    split; [lia|]. rewrite map_app.
    now apply counter_names_app with (mid := ic').
Qed.

Lemma process_shape_files shape : forall slide_num image_count image_dir,
  let r := process_shape Document shape slide_num image_count image_dir in
  image_count <= snd r
  /\ counter_names image_dir image_count (snd r) (map fst (files (fst r))).
Proof.
  induction shape as [v ty shs htf tf img htab tab nm IH] using shape_ind.
  intros slide_num image_count image_dir. cbv zeta.
  rewrite process_shape_eq.
  destruct (invisible _).
  - simpl. split; [lia | apply counter_names_nil].
  - destruct (type_is _ 6); [destruct shs as [subshapes|]|];
      simpl Shape.shapes; cbv iota;
      try apply process_leaf_files.
    apply process_shapes_files_of.
    eapply Forall_impl; [|exact IH]. simpl. intros a Ha ic. apply Ha.
Qed.

Lemma process_shapes_files shapes slide_num image_count image_dir :
  let r := process_shapes Document shapes slide_num image_count image_dir in
  image_count <= snd r
  /\ counter_names image_dir image_count (snd r) (map fst (files (fst r))).
Proof.
  apply process_shapes_files_of. apply Forall_forall. intros shape _ ic.
  apply process_shape_files.
Qed.

(** The slide loop keeps the names written so far distinct and below the
    image counter. *)
Lemma pptx_loop_files image_dir slides : forall i w image_count,
  counter_names image_dir 0 image_count (map fst (files w)) ->
  let r :=
    fold_left
      (fun '(doc, image_count) '(i, slide) =>
         let doc :=
           add_block doc
             (Heading (Py.lit "Slide " ++ Py.str_of_nat (i + 1)) 1) in
         let '(doc, image_count) :=
           process_shapes doc slide (i + 1) image_count image_dir in
         (add_block doc PageBreak, image_count))
      (combine (seq i (length slides)) slides) (w, image_count) in
  counter_names image_dir 0 (snd r) (map fst (files (fst r))).
Proof.
  induction slides as [|slide rest IH]; intros i w image_count Hw.
  - exact Hw.
  - cbv zeta. rewrite enumerate_from_cons. simpl fold_left.
    rewrite process_shapes_frame.
    pose proof (process_shapes_files slide (i + 1) image_count image_dir)
      as Hslide. cbv zeta in Hslide.
    destruct (process_shapes Document slide (i + 1) image_count image_dir)
      as [d ic'].
    simpl in Hslide. destruct Hslide as [Hle Hnames].
    apply IH. simpl. rewrite map_app.
    apply counter_names_app with (mid := image_count); auto with arith.
Qed.

(** ** Image files of a PDF *)

Lemma in_enumerate_from {A} (l : list A) : forall k j x,
  In (j, x) (combine (seq k (length l)) l) ->
  k <= j /\ nth_error l (j - k) = Some x.
Proof.
  induction l as [|a l IH]; intros k j x Hin.
  - destruct Hin.
  - rewrite enumerate_from_cons in Hin. destruct Hin as [Heq|Hin].
    + injection Heq as <- <-. split; [lia|]. now rewrite Nat.sub_diag.
    + apply IH in Hin. destruct Hin as [Hle Hnth]. split; [lia|].
      replace (j - k) with (S (j - S k)) by lia. exact Hnth.
Qed.

Lemma nth_error_enumerate_from {A} (l : list A) : forall k j x,
  nth_error l j = Some x -> In (k + j, x) (combine (seq k (length l)) l).
Proof.
  induction l as [|a l IH]; intros k j x Hnth.
  - destruct j; discriminate.
  - rewrite enumerate_from_cons. destruct j as [|j]; simpl in Hnth.
    + injection Hnth as <-. left. f_equal. lia.
    + right. replace (k + S j) with (S k + j) by lia. now apply IH.
Qed.

Lemma enumerate_from_NoDup {A} (l : list A) : forall k,
  NoDup (map fst (combine (seq k (length l)) l)).
Proof.
  induction l as [|a l IH]; intro k.
  - constructor.
  - rewrite enumerate_from_cons. simpl. constructor; [|apply IH].
    intro Hin. apply in_map_iff in Hin. destruct Hin as [[j x] [Hj Hin]].
    simpl in Hj. subst j. apply in_enumerate_from in Hin. lia.
Qed.

Lemma NoDup_map_injective {A B} (f : A -> B) (l : list A) :
  (forall x y, f x = f y -> x = y) -> NoDup l -> NoDup (map f l).
Proof.
  intros Hf. induction 1 as [|a l Ha _ IH]; simpl; constructor; [|exact IH].
  intro Hin. apply in_map_iff in Hin. destruct Hin as [y [Hy Hin]].
  apply Hf in Hy. now subst.
Qed.

Lemma page_files_names pdf image_dir i page :
  map fst (page_files pdf image_dir i page)
  = map (img_path image_dir i)
      (map fst (enumerate (Page.get_images page))).
Proof.
  unfold page_files. rewrite !map_map. apply map_ext. now intros [j xref].
Qed.

Lemma page_files_NoDup pdf image_dir i page :
  NoDup (map fst (page_files pdf image_dir i page)).
Proof.
  rewrite page_files_names.
  apply NoDup_map_injective.
  - intros j j' H. now apply img_path_inj in H.
  - apply enumerate_from_NoDup.
Qed.

Lemma pdf_files_page_index pdf image_dir pages : forall k nm,
  In nm (map fst (pdf_files pdf pages k image_dir)) ->
  exists i j, k <= i /\ nm = img_path image_dir i j.
Proof.
  induction pages as [|page rest IH]; intros k nm Hin.
  - destruct Hin.
  - simpl in Hin. rewrite map_app in Hin. apply in_app_or in Hin.
    destruct Hin as [Hin|Hin].
    + rewrite page_files_names in Hin. apply in_map_iff in Hin.
      destruct Hin as [j [<- _]]. exists k, j. split; [lia|reflexivity].
    + apply IH in Hin. destruct Hin as [i [j [Hle ->]]].
      exists i, j. split; [lia|reflexivity].
Qed.

Lemma pdf_files_NoDup pdf image_dir pages : forall k,
  NoDup (map fst (pdf_files pdf pages k image_dir)).
Proof.
  induction pages as [|page rest IH]; intro k.
  - constructor.
  - simpl. rewrite map_app.
    apply NoDup_app; [apply page_files_NoDup | apply IH |].
    intros nm Hin1 Hin2.
    rewrite page_files_names in Hin1. apply in_map_iff in Hin1.
    destruct Hin1 as [j [<- _]].
    apply pdf_files_page_index in Hin2. destruct Hin2 as [i' [j' [Hle Heq]]].
    apply img_path_inj in Heq. lia.
Qed.

(** ** The image counter counts the pictures saved *)

Lemma process_leaf_count shape slide_num image_count image_dir :
  let r := process_leaf Document shape slide_num image_count image_dir in
  snd r = image_count + length (files (fst r)).
Proof.
  unfold process_leaf.
  destruct (Shape.has_text_frame shape).
  - simpl. rewrite add_text_to_docx_spec. simpl. lia.
  - destruct (type_is shape 13), (Shape.image shape) as [image|];
      repeat match goal with
        | |- context [if ?c then _ else _] => destruct c
        end;
      simpl; lia.
Qed.

Lemma process_shapes_count_of shapes slide_num image_dir :
  Forall
    (fun shape => forall image_count,
       let r := process_shape Document shape slide_num image_count image_dir in
       snd r = image_count + length (files (fst r)))
    shapes ->
  forall image_count,
    let r := process_shapes Document shapes slide_num image_count image_dir in
    snd r = image_count + length (files (fst r)).
Proof.
  induction 1 as [|shape rest Hshape _ IH]; intro image_count.
  - simpl. lia.
  - cbv zeta. rewrite process_shapes_cons.
    specialize (Hshape image_count). cbv zeta in Hshape.
    destruct (process_shape Document shape slide_num image_count image_dir)
      as [d ic'].
    simpl in Hshape. rewrite process_shapes_frame.
    specialize (IH ic'). cbv zeta in IH.
    destruct (process_shapes Document rest slide_num ic' image_dir)
      as [d' ic''].
    simpl in IH |- *. rewrite length_app. lia.
Qed.

Lemma process_shape_count shape : forall slide_num image_count image_dir,
  let r := process_shape Document shape slide_num image_count image_dir in
  snd r = image_count + length (files (fst r)).
Proof.
  induction shape as [v ty shs htf tf img htab tab nm IH] using shape_ind.
  intros slide_num image_count image_dir. cbv zeta.
  rewrite process_shape_eq.
  destruct (invisible _).
  - simpl. lia.
  - destruct (type_is _ 6); [destruct shs as [subshapes|]|];
      simpl Shape.shapes; cbv iota;
      try apply process_leaf_count.
    apply process_shapes_count_of.
    eapply Forall_impl; [|exact IH]. simpl. intros a Ha ic. apply Ha.
Qed.

(** C9. In one conversion no two image files are written under the same
    name. For a presentation the names written are pairwise distinct, and
    processing a shape advances the image counter by exactly the number
    of files it writes, so the counter in each name is new; for a PDF the
    names written are pairwise distinct, each carrying its page index and
    its in-page image index. *)
Theorem C9_image_names_are_distinct :
  forall (prs : Presentation) (pdf : Pdf.t) (image_dir : Py.str),
    NoDup (map fst (files (pptx_to_docx prs image_dir)))
    /\ (forall shape slide_num image_count,
          snd (process_shape Document shape slide_num image_count image_dir)
          = image_count
            + length (files (fst (process_shape Document shape slide_num
                                    image_count image_dir))))
    /\ NoDup (map fst (files (pdf_to_docx pdf image_dir)))
    /\ (forall i j i' j',
          img_path image_dir i j = img_path image_dir i' j' ->
          i = i' /\ j = j').
Proof.
  intros prs pdf image_dir. split; [|split; [|split]].
  - unfold pptx_to_docx, enumerate.
    pose proof (@pptx_loop_files image_dir prs 0 Document 0
                  (counter_names_nil image_dir 0 0)) as H.
    cbv zeta in H. exact (proj1 H).
  - intros. apply process_shape_count.
  - rewrite pdf_to_docx_spec. apply pdf_files_NoDup.
  - intros i j i' j'. apply img_path_inj.
Qed.

Lemma C9_sample_witness :
  NoDup (map fst (files (pptx_to_docx sample_prs pptx_images)))
  /\ NoDup (map fst (files (pdf_to_docx sample_pdf pdf_images))).
Proof.
  destruct (C9_image_names_are_distinct sample_prs sample_pdf pptx_images)
    as [Hpptx _].
  destruct (C9_image_names_are_distinct sample_prs sample_pdf pdf_images)
    as [_ [_ [Hpdf _]]].
  split; [exact Hpptx | exact Hpdf].
Defined.

(** ** Run colours *)

Lemma mapM_raise {A B} (f : A -> Py.exc B) (l1 : list A) (x : A)
  (l2 : list A) (e : Py.exn) :
  Forall (fun y => exists v, f y = Py.Return v) l1 ->
  f x = Py.Raise e ->
  Py.mapM f (l1 ++ x :: l2) = Py.Raise e.
Proof.
  intros Hl1 Hx. induction Hl1 as [|y l1 [v Hy] _ IH]; simpl.
  - now rewrite Hx.
  - now rewrite Hy, IH.
Qed.

(** What the [try] block is there for: once [font.color.rgb] has been
    evaluated without an exception, no value it gives makes the colour
    step raise; and an [AttributeError] of the guard gives no colour. *)
Lemma color_step_returns (color_truthy : bool) (v : option (list Z)) :
  exists c, color_step color_truthy (Py.Return v) = Py.Return c.
Proof.
  unfold color_step. destruct color_truthy; simpl; eauto.
Qed.

Lemma color_step_attribute_error (color_truthy : bool) :
  color_step color_truthy (Py.Raise Py.AttributeError) = Py.Return None.
Proof. now destruct color_truthy. Qed.

(** On the colour data of [rgb_attr], the step is [run_color]. *)
Lemma color_step_run_color (font : Font.t) (c : rgb_attr) :
  Font.color font = Some c ->
  color_step true (get_rgb c) = Py.Return (run_color font).
Proof.
  intro Hc. unfold run_color. rewrite Hc.
  destruct c as [|v]; reflexivity.
Qed.

(** C7. An exception other than [AttributeError] raised by
    [font.color.rgb] is raised by the guard of line 23, before the [try]
    block is entered, and ends the extraction: with the runs and
    paragraphs before it extracted without an exception, the extractor
    raises it, whatever follows. *)
Theorem C7_guard_exception_escapes :
  forall (e : Py.exn)
         (paras_before paras_after : list (list (Py.exc (option (list Z)))))
         (runs_before runs_after : list (Py.exc (option (list Z)))),
    e <> Py.AttributeError ->
    Forall
      (fun para => exists colors,
         Py.mapM (color_step true) para = Py.Return colors)
      paras_before ->
    Forall (fun access => exists c, color_step true access = Py.Return c)
      runs_before ->
    color_step true (Py.Raise e) = Py.Raise e
    /\ extract_colors
         (paras_before ++ (runs_before ++ Py.Raise e :: runs_after)
          :: paras_after)
       = Py.Raise e.
Proof.
  intros e paras_before paras_after runs_before runs_after He Hparas Hruns.
  assert (Hstep : color_step true (Py.Raise e) = Py.Raise e).
  { destruct e; try reflexivity. congruence. }
  split; [exact Hstep|].
  unfold extract_colors. apply mapM_raise; [exact Hparas|].
  now apply mapM_raise.
Qed.

Lemma C7_bad_hex_witness :
  extract_colors bad_hex_frame = Py.Raise Py.ValueError.
Proof.
  apply (@C7_guard_exception_escapes Py.ValueError [] []
           [Py.Return (Some [255; 0; 0]%Z)] [Py.Raise Py.AttributeError]).
  - discriminate.
  - constructor.
  - constructor; [|constructor]. eexists. reflexivity.
Defined.

(** ** Saving the images of a PDF *)

(** Where the save returns, it saves what [save_pixmap] tells. *)
Lemma save_image_returns (pix : Pixmap.t) (d : FileData) :
  save_image pix = Py.Return d -> d = save_pixmap pix.
Proof.
  unfold save_image, save_pixmap, pix_save.
  destruct (Pixmap.n pix <? 5)%Z.
  - destruct (3 <? colorspace_n pix)%Z; [discriminate|]. congruence.
  - congruence.
Qed.

Lemma save_image_five_components (pix : Pixmap.t) :
  (5 <= Pixmap.n pix)%Z -> save_image pix = Py.Return (PngRGB pix).
Proof.
  intro H. unfold save_image.
  destruct (Z.ltb_spec (Pixmap.n pix) 5); [lia | reflexivity].
Qed.

(** C2. A CMYK image without alpha has 4 components, fewer than 5: it is
    not converted to RGB but handed to [pix.save] as it is, which refuses
    it with [ValueError]; no file is written for it. *)
Theorem C2_cmyk_is_not_converted :
  forall pix : Pixmap.t,
    Pixmap.n pix = 4%Z ->
    Pixmap.alpha pix = false ->
    save_image pix = Py.Raise Py.ValueError.
Proof.
  intros pix Hn Ha. unfold save_image, pix_save, colorspace_n.
  now rewrite Hn, Ha.
Qed.

Lemma C2_cmyk_witness : save_image cmyk_pixmap = Py.Raise Py.ValueError.
Proof.
  apply (C2_cmyk_is_not_converted cmyk_pixmap); reflexivity.
Defined.

(** ** Embedding a picture *)




(** ** Runs of the converter on the sample inputs *)

Example str_of_nat_12 : Py.str_of_nat 12 = Py.lit "12".
Proof. reflexivity. Qed.

Example split_empty_text : Py.split Py.LF [] = [[]].
Proof. reflexivity. Qed.

Example strip_both_ends : Py.strip (Py.lit "  a b  ") = Py.lit "a b".
Proof. reflexivity. Qed.

Example try_block_raises_on_short_tuple :
  color_try_body (RgbValue (Some [255; 0]%Z)) = Py.Raise Py.IndexError
  /\ color_try_body (RgbValue (Some [256; 0; 0]%Z)) = Py.Raise Py.ValueError
  /\ color_try_body NoRgbAttr = Py.Raise Py.AttributeError.
Proof. repeat split. Qed.

Example narrow_picture_in_emu :
  width_inches_float narrow_image
  = Float (4597424619607381 # 4503599627370496)%Q
  /\ Inches (width_inches_float narrow_image) = Py.Return 933449%Z
  /\ picture_branch png_reader Document narrow_image 1 0 pptx_images
     = ({| doc := [Picture (Py.lit "pptx_images/image_1_0.png")
                     (933449 # 914400)%Q];
           files := [(Py.lit "pptx_images/image_1_0.png",
                      Blob [137; 80; 78; 71; 13; 10; 26; 10]%N)] |},
        Py.Return 1).
Proof. repeat split. Qed.

Example true_div_overflow :
  Py.true_div (2 ^ 1031) 96 = Py.Raise Py.OverflowError
  /\ width_inches_float
       (Image.mk (Py.lit "png") [] (Py.Return (2 ^ 1031)%Z))
     = Int 3.
Proof. vm_compute. split; reflexivity. Qed.

Example table_scenario :
  process_shape Document table_shape 1 0 pptx_images
  = ({| doc :=
          [Table 2 3 Table_Grid
             [(0, 0, Py.lit "A"); (0, 1, Py.lit "B"); (0, 2, Py.lit "C");
              (1, 0, Py.lit "D"); (1, 1, Py.lit "E"); (1, 2, Py.lit "F")]];
        files := [] |}, 0).
Proof. reflexivity. Qed.

Example chart_placeholder :
  process_shape Document chart_shape 1 0 pptx_images
  = ({| doc := [Paragraph Chart_Placeholder None []]; files := [] |}, 0).
Proof. reflexivity. Qed.

Example smartart_frame_placeholder :
  process_shape Document smartart_frame 1 0 pptx_images
  = ({| doc := [Paragraph SmartArt_Placeholder None []]; files := [] |}, 0).
Proof. reflexivity. Qed.

Example sample_prs_document :
  pptx_to_docx sample_prs pptx_images
  = {| doc :=
         [Heading (Py.lit "Slide 1") 1;
          hi_paragraph;
          hi_paragraph;
          Picture (Py.lit "pptx_images/image_1_0.png") 5%Q;
          PageBreak;
          Heading (Py.lit "Slide 2") 1;
          Picture (Py.lit "pptx_images/image_2_1.png") 5%Q;
          Paragraph SmartArt_Placeholder None [];
          PageBreak];
       files :=
         [(Py.lit "pptx_images/image_1_0.png", Blob [137; 80; 78; 71]%N);
          (Py.lit "pptx_images/image_2_1.png", Blob [137; 80; 78; 71]%N)] |}.
Proof. reflexivity. Qed.

Example sample_pdf_document :
  pdf_to_docx sample_pdf pdf_images
  = {| doc :=
         [Heading (Py.lit "Page 1") 1;
          Paragraph (Py.lit "Hello") None [];
          Paragraph (Py.lit "World") None [];
          Picture (Py.lit "pdf_images/page_1_img_1.png") 4%Q;
          Picture (Py.lit "pdf_images/page_1_img_2.png") 4%Q;
          PageBreak;
          Heading (Py.lit "Page 2") 1;
          Paragraph [] None [];
          PageBreak];
       files :=
         [(Py.lit "pdf_images/page_1_img_1.png", Png rgba_pixmap);
          (Py.lit "pdf_images/page_1_img_2.png", PngRGB cmyka_pixmap)] |}.
Proof. reflexivity. Qed.

(** * Further properties of the converter *)

(** ** Invariants of the shape walk and of the slide loop *)

Section ShapeInvariant.

Variables (slide_num : nat) (image_dir : Py.str).

(** [Q ic d ic']: a relation between the image counter going in, what is
    appended and written, and the image counter coming out. *)
Variable Q : nat -> World -> nat -> Prop.

Hypothesis Q_skip : forall ic, Q ic Document ic.

Hypothesis Q_leaf :
  forall shape ic,
    Q ic (fst (process_leaf Document shape slide_num ic image_dir))
      (snd (process_leaf Document shape slide_num ic image_dir)).

Hypothesis Q_seq :
  forall ic d1 ic1 d2 ic2,
    Q ic d1 ic1 -> Q ic1 d2 ic2 -> Q ic (extend d1 d2) ic2.

Lemma process_shapes_invariant_of (shapes : list Shape.t) :
  Forall
    (fun shape => forall ic,
       Q ic (fst (process_shape Document shape slide_num ic image_dir))
         (snd (process_shape Document shape slide_num ic image_dir)))
    shapes ->
  forall ic,
    Q ic (fst (process_shapes Document shapes slide_num ic image_dir))
      (snd (process_shapes Document shapes slide_num ic image_dir)).
Proof.
  induction 1 as [|shape rest Hshape _ IH]; intro ic.
  - apply Q_skip.
  - rewrite process_shapes_cons. specialize (Hshape ic).
    destruct (process_shape Document shape slide_num ic image_dir)
      as [d ic'].
    rewrite process_shapes_frame. simpl in *.
    apply Q_seq with (ic1 := ic'); [exact Hshape | apply IH].
Qed.

Lemma process_shape_invariant (shape : Shape.t) :
  forall ic,
    Q ic (fst (process_shape Document shape slide_num ic image_dir))
      (snd (process_shape Document shape slide_num ic image_dir)).
Proof.
  induction shape as [v ty shs htf tf img htab tab nm IH] using shape_ind.
  intro ic. rewrite process_shape_eq.
  destruct (invisible _).
  - apply Q_skip.
  - destruct (type_is _ 6); [destruct shs as [subshapes|]|];
      simpl Shape.shapes; cbv iota; try apply Q_leaf.
    apply process_shapes_invariant_of. exact IH.
Qed.

Lemma process_shapes_invariant (shapes : list Shape.t) :
  forall ic,
    Q ic (fst (process_shapes Document shapes slide_num ic image_dir))
      (snd (process_shapes Document shapes slide_num ic image_dir)).
Proof.
  apply process_shapes_invariant_of. apply Forall_forall. intros shape _.
  apply process_shape_invariant.
Qed.

End ShapeInvariant.

Lemma pptx_to_docx_loop prs image_dir :
  pptx_to_docx prs image_dir
  = fst (fold_left (slide_step image_dir) (enumerate prs) (Document, 0)).
Proof. reflexivity. Qed.

Lemma slide_step_eq image_dir w ic i slide :
  slide_step image_dir (w, ic) (i, slide)
  = (extend w
       (add_block
          (extend
             (add_block Document
                (Heading (Py.lit "Slide " ++ Py.str_of_nat (i + 1)) 1))
             (fst (process_shapes Document slide (i + 1) ic image_dir)))
          PageBreak),
     snd (process_shapes Document slide (i + 1) ic image_dir)).
Proof.
  unfold slide_step. rewrite process_shapes_frame.
  rewrite <- add_block_extend, <- extend_assoc, <- add_block_alt.
  reflexivity.
Qed.

Section SlideLoopInvariant.

Variable image_dir : Py.str.

(** [J i w ic]: a property of the document, the files and the image
    counter when the loop reaches slide index [i]. *)
Variable J : nat -> World -> nat -> Prop.

Hypothesis J_step :
  forall i w ic slide,
    J i w ic ->
    J (S i) (fst (slide_step image_dir (w, ic) (i, slide)))
      (snd (slide_step image_dir (w, ic) (i, slide))).

Lemma slide_loop_invariant (slides : list Slide) :
  forall i w ic,
    J i w ic ->
    J (i + length slides)
      (fst (fold_left (slide_step image_dir)
              (combine (seq i (length slides)) slides) (w, ic)))
      (snd (fold_left (slide_step image_dir)
              (combine (seq i (length slides)) slides) (w, ic))).
Proof.
  induction slides as [|slide rest IH]; intros i w ic HJ.
  - simpl. now rewrite Nat.add_0_r.
  - rewrite enumerate_from_cons. cbn [fold_left].
    pose proof (J_step slide HJ) as Hstep.
    destruct (slide_step image_dir (w, ic) (i, slide)) as [w' ic'].
    cbn [fst snd] in Hstep. apply IH in Hstep.
    replace (i + length (slide :: rest)) with (S i + length rest)
      by (simpl; lia).
    exact Hstep.
Qed.

End SlideLoopInvariant.

(** ** Embedded pictures and written files *)

Lemma picture_paths_app d1 d2 :
  picture_paths (d1 ++ d2) = picture_paths d1 ++ picture_paths d2.
Proof. apply flat_map_app. Qed.

Lemma picture_paths_paragraphs (l : list ParaData.t) :
  picture_paths (map doc_para l) = [].
Proof. induction l; simpl; auto. Qed.

Lemma picture_paths_slide text level d :
  picture_paths (Heading text level :: d ++ [PageBreak]) = picture_paths d.
Proof.
  change (Heading text level :: d ++ [PageBreak])
    with ([Heading text level] ++ d ++ [PageBreak]).
  rewrite !picture_paths_app. simpl. apply app_nil_r.
Qed.

Lemma process_leaf_pictures shape slide_num ic image_dir :
  picture_paths
    (doc (fst (process_leaf Document shape slide_num ic image_dir)))
  = map fst (files (fst (process_leaf Document shape slide_num ic image_dir))).
Proof.
  unfold process_leaf.
  destruct (Shape.has_text_frame shape).
  - simpl. rewrite add_text_to_docx_spec. simpl.
    apply picture_paths_paragraphs.
  - destruct (type_is shape 13), (Shape.image shape) as [image|];
      repeat match goal with
        | |- context [if ?c then _ else _] => destruct c
        end;
      reflexivity.
Qed.

Lemma page_contents_pictures pdf image_dir i page :
  picture_paths (page_contents image_dir i page)
  = map fst (page_files pdf image_dir i page).
Proof.
  unfold page_contents, page_files. rewrite picture_paths_app.
  assert (H : forall lines,
             picture_paths (map (fun line => Paragraph line None []) lines)
             = []) by (induction lines; simpl; auto).
  rewrite H. simpl.
  induction (enumerate (Page.get_images page)) as [|[j xref] rest IH].
  - reflexivity.
  - simpl. f_equal. exact IH.
Qed.

Lemma pdf_layout_pictures pdf image_dir pages : forall i,
  picture_paths (pdf_layout pages i image_dir)
  = map fst (pdf_files pdf pages i image_dir).
Proof.
  induction pages as [|page rest IH]; intro i.
  - reflexivity.
  - simpl pdf_layout. simpl pdf_files.
    change (Heading ?t ?l :: ?x) with ([Heading t l] ++ x).
    rewrite !picture_paths_app, map_app.
    change (PageBreak :: ?x) with ([PageBreak] ++ x).
    rewrite picture_paths_app, IH, (page_contents_pictures pdf).
    reflexivity.
Qed.

(** X1. In both pipelines the pictures embedded in the document are the
    image files written during the run: read in document order, the
    picture blocks name exactly the files written, in the order they were
    written. *)
Theorem X1_pictures_are_the_files_written :
  forall (prs : Presentation) (pdf : Pdf.t) (image_dir : Py.str),
    picture_paths (doc (pptx_to_docx prs image_dir))
    = map fst (files (pptx_to_docx prs image_dir))
    /\ picture_paths (doc (pdf_to_docx pdf image_dir))
       = map fst (files (pdf_to_docx pdf image_dir)).
Proof.
  intros prs pdf image_dir. split.
  - rewrite pptx_to_docx_loop. unfold enumerate.
    apply (@slide_loop_invariant image_dir
             (fun _ w _ => picture_paths (doc w) = map fst (files w)))
      with (i := 0) (w := Document) (ic := 0); [|reflexivity].
    intros i w ic slide Hw. rewrite slide_step_eq.
    cbn [fst snd extend add_block doc files Document app].
    rewrite picture_paths_app, map_app, Hw, picture_paths_slide.
    f_equal.
    apply (@process_shapes_invariant (i + 1) image_dir
             (fun _ d _ => picture_paths (doc d) = map fst (files d))).
    + reflexivity.
    + intros. apply process_leaf_pictures.
    + intros ic0 d1 ic1 d2 ic2 H1 H2. simpl.
      now rewrite picture_paths_app, map_app, H1, H2.
  - rewrite pdf_to_docx_spec. simpl. apply pdf_layout_pictures.
Qed.

(** ** Numbering of the image files of a presentation *)

Lemma numbered_from_app image_dir first last first' last' lo l1 l2 :
  first' <= first -> last <= last' ->
  numbered_from image_dir first last lo l1 ->
  numbered_from image_dir first' last' (lo + length l1) l2 ->
  numbered_from image_dir first' last' lo (l1 ++ l2).
Proof.
  intros Hf Hl H1 H2 j nm Hj.
  destruct (Nat.lt_ge_cases j (length l1)) as [Hlt|Hge].
  - rewrite nth_error_app1 in Hj by assumption.
    destruct (H1 j nm Hj) as [m [ext [Hm ->]]].
    exists m, ext. split; [lia|reflexivity].
  - rewrite nth_error_app2 in Hj by assumption.
    destruct (H2 _ nm Hj) as [m [ext [Hm ->]]].
    exists m, ext. split; [assumption|].
    f_equal. lia.
Qed.

Lemma process_shapes_numbered shapes slide_num image_dir ic :
  let r := process_shapes Document shapes slide_num ic image_dir in
  snd r = ic + length (files (fst r))
  /\ numbered_from image_dir slide_num slide_num ic (map fst (files (fst r))).
Proof.
  apply (@process_shapes_invariant slide_num image_dir
           (fun ic d ic' =>
              ic' = ic + length (files d)
              /\ numbered_from image_dir slide_num slide_num ic
                   (map fst (files d)))).
  - intro ic0. split; [simpl; lia|]. intros [|j] nm H; discriminate.
  - intros shape ic0. split; [apply process_leaf_count|].
    unfold process_leaf.
    destruct (Shape.has_text_frame shape).
    + simpl. rewrite add_text_to_docx_spec. simpl.
      intros [|j] nm H; discriminate.
    + destruct (type_is shape 13), (Shape.image shape) as [image|];
        repeat match goal with
          | |- context [if ?c then _ else _] => destruct c
          end;
        simpl; try (intros [|j] nm H; discriminate).
      intros [|[|j]] nm H; try discriminate. injection H as <-.
      exists slide_num, (Image.ext image). rewrite Nat.add_0_r.
      split; [lia|reflexivity].
  - intros ic0 d1 ic1 d2 ic2 [Hc1 Hn1] [Hc2 Hn2]. simpl.
    rewrite length_app, map_app. split; [lia|].
    apply numbered_from_app with (first := slide_num) (last := slide_num);
      [lia | lia | assumption |].
    rewrite length_map, <- Hc1. exact Hn2.
Qed.

(** X2. The image counter is never reset between slides: the file
    written in position [j] of the whole run (counting from 0) is named
    [image_<slide>_<j>.<ext>] in the image directory, with the 1-based
    number of a slide of the presentation. *)
Theorem X2_image_files_are_numbered_through :
  forall (prs : Presentation) (image_dir : Py.str) (j : nat) (nm : Py.str),
    nth_error (map fst (files (pptx_to_docx prs image_dir))) j = Some nm ->
    exists slide_num ext,
      1 <= slide_num <= length prs
      /\ nm = image_filename image_dir slide_num j ext.
Proof.
  intros prs image_dir.
  assert (H : (fun w ic =>
                 ic = length (files w)
                 /\ numbered_from image_dir 1 (0 + length prs) 0
                      (map fst (files w)))
                (fst (fold_left (slide_step image_dir)
                        (combine (seq 0 (length prs)) prs) (Document, 0)))
                (snd (fold_left (slide_step image_dir)
                        (combine (seq 0 (length prs)) prs) (Document, 0)))).
  { apply (@slide_loop_invariant image_dir
             (fun i w ic =>
                ic = length (files w)
                /\ numbered_from image_dir 1 i 0 (map fst (files w)))).
    - intros i w ic slide [Hc Hn]. rewrite slide_step_eq. simpl.
      destruct (process_shapes_numbered slide (i + 1) image_dir ic)
        as [Hc' Hn'].
      rewrite length_app, map_app. split; [lia|].
      apply numbered_from_app with (first := 1) (last := i);
        [lia | lia | assumption |].
      rewrite length_map, <- Hc. simpl.
      intros j nm Hj. destruct (Hn' j nm Hj) as [m [ext [Hm ->]]].
      exists m, ext. split; [lia|reflexivity].
    - split; [reflexivity|]. intros [|j] nm H; discriminate. }
  destruct H as [_ H]. exact H.
Qed.

Lemma X2_sample_witness :
  exists slide_num ext,
    1 <= slide_num <= 2
    /\ Py.lit "pptx_images/image_2_1.png"
       = image_filename pptx_images slide_num 1 ext.
Proof.
  apply (@X2_image_files_are_numbered_through sample_prs pptx_images 1
           (Py.lit "pptx_images/image_2_1.png")).
  reflexivity.
Defined.

(** ** Picture widths *)

Lemma width_inches_at_most_5 (image : Image.t) : (width_inches image <= 5)%Q.
Proof.
  unfold width_inches. destruct (Image.size0 image) as [px|e]; simpl.
  - unfold min5. destruct (Qle_bool 5 (px # 96)) eqn:E.
    + apply Qle_refl.
    + apply Qlt_le_weak, Qnot_le_lt. intro H.
      apply Qle_bool_iff in H. congruence.
  - unfold Qle; simpl; lia.
Qed.

Lemma process_leaf_widths shape slide_num ic image_dir :
  Forall at_most_5_inches
    (doc (fst (process_leaf Document shape slide_num ic image_dir))).
Proof.
  unfold process_leaf.
  destruct (Shape.has_text_frame shape).
  - simpl. rewrite add_text_to_docx_spec. simpl.
    apply Forall_forall. intros b Hb. apply in_map_iff in Hb.
    now destruct Hb as [p [<- _]].
  - destruct (type_is shape 13), (Shape.image shape) as [image|];
      repeat match goal with
        | |- context [if ?c then _ else _] => destruct c
        end;
      simpl; repeat constructor.
    apply width_inches_at_most_5.
Qed.

Lemma slide_contents_widths slide slide_num ic image_dir :
  Forall at_most_5_inches (slide_contents slide slide_num ic image_dir).
Proof.
  pose proof
    (@process_shapes_invariant slide_num image_dir
       (fun _ d _ => Forall at_most_5_inches (doc d))) as H.
  cbv beta in H.
  specialize (H (fun _ => Forall_nil _)
                (fun shape ic0 =>
                   process_leaf_widths shape slide_num ic0 image_dir)).
  assert (Hseq : forall (ic0 : nat) d1 (ic1 : nat) d2 (ic2 : nat),
             Forall at_most_5_inches (doc d1) ->
             Forall at_most_5_inches (doc d2) ->
             Forall at_most_5_inches (doc (extend d1 d2))).
  { intros. simpl. apply Forall_app. now split. }
  specialize (H Hseq slide ic).
  now rewrite process_shapes_layout in H.
Qed.

(** X3. No picture is embedded wider than 5 inches: in a document written
    from a presentation every picture has the width computed for it, at
    most 5, and in a document written from a PDF every picture is 4
    inches wide. *)
Theorem X3_no_picture_wider_than_5_inches :
  forall (prs : Presentation) (pdf : Pdf.t) (image_dir : Py.str),
    Forall at_most_5_inches (doc (pptx_to_docx prs image_dir))
    /\ Forall
         (fun b =>
            match b with Picture _ width => width = 4%Q | _ => True end)
         (doc (pdf_to_docx pdf image_dir)).
Proof.
  intros prs pdf image_dir. split.
  - rewrite pptx_to_docx_layout.
    assert (H : forall i ic,
               Forall at_most_5_inches (pptx_layout prs i ic image_dir));
      [|apply H].
    induction prs as [|slide rest IH]; intros i ic; simpl.
    + constructor.
    + constructor; [exact I|]. apply Forall_app. split.
      * apply slide_contents_widths.
      * constructor; [exact I | apply IH].
  - rewrite pdf_to_docx_spec. simpl. generalize 0.
    induction (Pdf.pages pdf) as [|page rest IH]; intro i; simpl.
    + constructor.
    + constructor; [exact I|]. apply Forall_app. split.
      * unfold page_contents. apply Forall_app. split;
          apply Forall_forall; intros b Hb; apply in_map_iff in Hb;
          destruct Hb as [x [<- _]]; [exact I | now destruct x].
      * constructor; [exact I | apply IH].
Qed.

(** ** Headings *)

Lemma heading_texts_app d1 d2 :
  heading_texts (d1 ++ d2) = heading_texts d1 ++ heading_texts d2.
Proof. apply flat_map_app. Qed.

Lemma heading_texts_content d :
  Forall content_block d -> heading_texts d = [].
Proof.
  induction 1 as [|b d [_ Hb] _ IH]; simpl.
  - reflexivity.
  - destruct b; try discriminate; exact IH.
Qed.

Lemma heading_texts_pptx_layout slides : forall i ic image_dir,
  heading_texts (pptx_layout slides i ic image_dir)
  = map (fun k => Py.lit "Slide " ++ Py.str_of_nat (k + 1))
      (seq i (length slides)).
Proof.
  induction slides as [|slide rest IH]; intros i ic image_dir.
  - reflexivity.
  - simpl pptx_layout. simpl length. simpl seq. simpl map.
    change (Heading ?t ?l :: ?x) with ([Heading t l] ++ x).
    rewrite !heading_texts_app.
    change (PageBreak :: ?x) with ([PageBreak] ++ x).
    rewrite heading_texts_app, IH.
    rewrite (heading_texts_content (slide_contents_content _ _ _ _)).
    reflexivity.
Qed.

Lemma heading_texts_pdf_layout pages : forall i image_dir,
  heading_texts (pdf_layout pages i image_dir)
  = map (fun k => Py.lit "Page " ++ Py.str_of_nat (k + 1))
      (seq i (length pages)).
Proof.
  induction pages as [|page rest IH]; intros i image_dir.
  - reflexivity.
  - simpl pdf_layout. simpl length. simpl seq. simpl map.
    change (Heading ?t ?l :: ?x) with ([Heading t l] ++ x).
    rewrite !heading_texts_app.
    change (PageBreak :: ?x) with ([PageBreak] ++ x).
    rewrite heading_texts_app, IH.
    rewrite (heading_texts_content (page_contents_content _ _ _)).
    reflexivity.
Qed.

(** X4. The headings of the document are [Slide 1], [Slide 2], ... (for a
    PDF [Page 1], [Page 2], ...), one per slide or page, in order and
    numbered from 1; nothing a shape or a page contributes is a heading. *)
Theorem X4_headings_number_the_slides :
  forall (prs : Presentation) (pdf : Pdf.t) (image_dir : Py.str),
    heading_texts (doc (pptx_to_docx prs image_dir))
    = map (fun k => Py.lit "Slide " ++ Py.str_of_nat (k + 1))
        (seq 0 (length prs))
    /\ heading_texts (doc (pdf_to_docx pdf image_dir))
       = map (fun k => Py.lit "Page " ++ Py.str_of_nat (k + 1))
           (seq 0 (length (Pdf.pages pdf))).
Proof.
  intros prs pdf image_dir. split.
  - rewrite pptx_to_docx_layout. apply heading_texts_pptx_layout.
  - rewrite pdf_to_docx_spec. apply heading_texts_pdf_layout.
Qed.

(** ** Flattening of a shape tree *)

Lemma leaves_eq shape :
  leaves shape
  = if invisible shape then []
    else match type_is shape 6, Shape.shapes shape with
         | true, Some subshapes => flat_map leaves subshapes
         | _, _ => [shape]
         end.
Proof. destruct shape; reflexivity. Qed.

Lemma process_shapes_single w shape slide_num ic image_dir :
  process_shapes w [shape] slide_num ic image_dir
  = process_shape w shape slide_num ic image_dir.
Proof.
  rewrite process_shapes_cons.
  now destruct (process_shape w shape slide_num ic image_dir).
Qed.

Lemma process_shapes_flat_map_leaves shapes slide_num image_dir :
  Forall
    (fun shape => forall w ic,
       process_shape w shape slide_num ic image_dir
       = process_shapes w (leaves shape) slide_num ic image_dir)
    shapes ->
  forall w ic,
    process_shapes w shapes slide_num ic image_dir
    = process_shapes w (flat_map leaves shapes) slide_num ic image_dir.
Proof.
  induction 1 as [|shape rest Hshape _ IH]; intros w ic.
  - reflexivity.
  - simpl flat_map. rewrite process_shapes_cons, process_shapes_app, Hshape.
    destruct (process_shapes w (leaves shape) slide_num ic image_dir)
      as [w' ic'].
    apply IH.
Qed.

Lemma process_shape_leaves shape : forall w slide_num ic image_dir,
  process_shape w shape slide_num ic image_dir
  = process_shapes w (leaves shape) slide_num ic image_dir.
Proof.
  induction shape as [v ty shs htf tf img htab tab nm IH] using shape_ind.
  intros w slide_num ic image_dir.
  rewrite process_shape_eq, leaves_eq.
  destruct (invisible _) eqn:Hv; [reflexivity|].
  destruct (type_is _ 6) eqn:Hty; [destruct shs as [subshapes|]|];
    simpl Shape.shapes; cbv iota.
  - apply process_shapes_flat_map_leaves.
    eapply Forall_impl; [|exact IH]. simpl. intros a Ha w0 ic0. apply Ha.
  - now rewrite process_shapes_single, process_shape_eq, Hv, Hty.
  - now rewrite process_shapes_single, process_shape_eq, Hv, Hty.
Qed.

Lemma leaves_are_leaves shape :
  Forall (fun leaf => invisible leaf = false /\ is_group leaf = false)
    (leaves shape).
Proof.
  induction shape as [v ty shs htf tf img htab tab nm IH] using shape_ind.
  rewrite leaves_eq.
  destruct (invisible _) eqn:Hv; [constructor|].
  destruct (type_is _ 6) eqn:Hty; [destruct shs as [subshapes|]|];
    simpl Shape.shapes; cbv iota.
  - clear Hv Hty. simpl in IH. induction IH as [|a l Ha _ IHl]; simpl.
    + constructor.
    + apply Forall_app. split; assumption.
  - constructor; [|constructor]. split; [exact Hv|].
    unfold is_group. simpl. now rewrite andb_false_r.
  - constructor; [|constructor]. split; [exact Hv|].
    unfold is_group. now rewrite Hty.
Qed.

(** X5. At any depth of nesting, processing a shape, or the shapes of a
    slide, gives what processing its leaves gives: the shapes that are
    neither invisible nor groups and have no invisible ancestor, taken in
    document order. Document, files and image counter are the same, and
    each leaf goes through the dispatch on its kind. *)
Theorem X5_shape_tree_is_its_leaves :
  forall (shapes : list Shape.t) (w : World) (slide_num ic : nat)
         (image_dir : Py.str),
    process_shapes w shapes slide_num ic image_dir
    = process_shapes w (flat_map leaves shapes) slide_num ic image_dir
    /\ Forall
         (fun leaf =>
            invisible leaf = false /\ is_group leaf = false
            /\ forall w' ic',
                 process_shape w' leaf slide_num ic' image_dir
                 = process_leaf w' leaf slide_num ic' image_dir)
         (flat_map leaves shapes).
Proof.
  intros shapes w slide_num ic image_dir. split.
  - apply process_shapes_flat_map_leaves. apply Forall_forall.
    intros shape _ w0 ic0. apply process_shape_leaves.
  - induction shapes as [|shape rest IH]; simpl.
    + constructor.
    + apply Forall_app. split; [|exact IH].
      eapply Forall_impl; [|apply leaves_are_leaves].
      intros leaf [Hv Hg]. repeat split; try assumption.
      intros. now apply process_shape_leaf.
Qed.

(** ** Text frames *)

(** X6. A shape with a text frame that is neither invisible nor a group
    is written as text and nothing else, whatever its type, image, table
    or name: one paragraph per paragraph of the frame, in order, each
    with the texts of the paragraph's runs in order; no file is written
    and the image counter is returned as it came. *)
Theorem X6_text_frame_paragraph_for_paragraph :
  forall (w : World) (shape : Shape.t) (slide_num ic : nat)
         (image_dir : Py.str),
    invisible shape = false ->
    is_group shape = false ->
    Shape.has_text_frame shape = true ->
    exists paras,
      process_shape w shape slide_num ic image_dir
      = ({| doc := doc w ++ paras; files := files w |}, ic)
      /\ Forall2
           (fun para b =>
              exists style runs,
                b = Paragraph [] style runs
                /\ map DocRun.text runs = map Run.text (Para.runs para))
           (Shape.text_frame shape) paras.
Proof.
  intros w shape slide_num ic image_dir Hv Hg Htf.
  exists (map (fun para => doc_para (para_data para)) (Shape.text_frame shape)).
  split.
  - rewrite text_frame_shape_gets_text_only by assumption.
    rewrite add_text_to_docx_spec. unfold extract_text_runs. rewrite Htf.
    unfold extend. simpl. now rewrite map_map, app_nil_r.
  - apply Forall2_map_right. intro para.
    eexists _, _. split; [reflexivity|].
    simpl. rewrite !map_map. reflexivity.
Qed.

Lemma X6_text_box_witness :
  exists paras,
    process_shape Document text_box 1 0 pptx_images
    = ({| doc := doc Document ++ paras; files := files Document |}, 0)
    /\ Forall2
         (fun para b =>
            exists style runs,
              b = Paragraph [] style runs
              /\ map DocRun.text runs = map Run.text (Para.runs para))
         (Shape.text_frame text_box) paras.
Proof.
  apply (@X6_text_frame_paragraph_for_paragraph Document text_box 1 0
           pptx_images); reflexivity.
Defined.

(** ** Tables *)

Lemma in_table_cells (rows : list (list Py.str)) : forall k r c t,
  In (r, c, t)
    (flat_map
       (fun '(r_idx, row) =>
          map (fun '(c_idx, cell) => (r_idx, c_idx, cell)) (enumerate row))
       (combine (seq k (length rows)) rows))
  <-> exists row,
        k <= r /\ nth_error rows (r - k) = Some row
        /\ nth_error row c = Some t.
Proof.
  intros k r c t. rewrite in_flat_map. split.
  - intros [[r' row] [Hrow Hin]]. apply in_map_iff in Hin.
    destruct Hin as [[c' cell] [Heq Hcell]]. injection Heq as -> -> ->.
    apply in_enumerate_from in Hrow. destruct Hrow as [Hle Hrow].
    apply in_enumerate_from in Hcell. destruct Hcell as [_ Hcell].
    rewrite Nat.sub_0_r in Hcell. now exists row.
  - intros [row [Hle [Hrow Hcell]]]. exists (r, row). split.
    + replace r with (k + (r - k)) at 1 by lia.
      now apply nth_error_enumerate_from.
    + apply in_map_iff. exists (c, t). split; [reflexivity|].
      now apply (nth_error_enumerate_from row 0).
Qed.

Lemma length_table_cells (rows : list (list Py.str)) : forall k,
  length
    (flat_map
       (fun '(r_idx, row) =>
          map (fun '(c_idx, cell) => (r_idx, c_idx, cell)) (enumerate row))
       (combine (seq k (length rows)) rows))
  = list_sum (map (@length Py.str) rows).
Proof.
  induction rows as [|row rest IH]; intro k.
  - reflexivity.
  - rewrite enumerate_from_cons. simpl flat_map.
    rewrite length_app, length_map, IH. unfold enumerate.
    rewrite length_combine, length_seq, Nat.min_id. reflexivity.
Qed.

(** X8. A table whose rows hold no more cells than the table has
    columns and whose cell texts are texts a document cell accepts is
    written as one table with as many rows as the source has rows and as
    many columns as it has columns, in the grid style; the cell
    assignments made are, one for one, the cells of the source rows:
    position (r, c) receives text [t] exactly when cell c of row r of the
    source holds [t], and every position assigned lies inside the table
    created. *)
Theorem X8_table_cell_for_cell :
  forall (w : World) (shape : Shape.t) (slide_num ic : nat)
         (image_dir : Py.str),
    invisible shape = false ->
    is_group shape = false ->
    Shape.has_text_frame shape = false ->
    is_picture shape = false ->
    Shape.has_table shape = true ->
    let table := Shape.table shape in
    Forall (fun row => length row <= Table.columns table) (Table.rows table) ->
    Forall (Forall cell_text_ok) (Table.rows table) ->
    exists cells,
      process_shape w shape slide_num ic image_dir
      = (add_block w
           (Table (length (Table.rows table)) (Table.columns table)
              Table_Grid cells),
         ic)
      /\ (forall r c t,
            In (r, c, t) cells
            <-> exists row,
                  nth_error (Table.rows table) r = Some row
                  /\ nth_error row c = Some t)
      /\ (forall r c t,
            In (r, c, t) cells ->
            r < length (Table.rows table) /\ c < Table.columns table
            /\ cell_text_ok t)
      /\ length cells = list_sum (map (@length Py.str) (Table.rows table)).
Proof.
  intros w shape slide_num ic image_dir Hv Hg Htf Hpic Htab table Hrows Htexts.
  assert (Hin : forall r c t,
             In (r, c, t) (table_cells table)
             <-> exists row,
                   nth_error (Table.rows table) r = Some row
                   /\ nth_error row c = Some t).
  { intros r c t. unfold table_cells, enumerate.
    rewrite (in_table_cells (Table.rows table) 0). rewrite Nat.sub_0_r.
    split.
    - intros [row [_ H]]. now exists row.
    - intros [row H]. exists row. split; [lia | exact H]. }
  exists (table_cells table). split; [|split; [|split]].
  - rewrite process_shape_leaf by assumption.
    unfold process_leaf. rewrite Htf, Htab. unfold is_picture in Hpic.
    destruct (type_is shape 13), (Shape.image shape); try reflexivity.
    discriminate.
  - exact Hin.
  - intros r c t H. apply Hin in H. destruct H as [row [Hrow Hcell]].
    assert (Hr : r < length (Table.rows table)).
    { apply nth_error_Some. congruence. }
    assert (Hc : c < length row).
    { apply nth_error_Some. congruence. }
    apply nth_error_In in Hrow. apply nth_error_In in Hcell.
    rewrite Forall_forall in Hrows, Htexts.
    specialize (Hrows row Hrow). specialize (Htexts row Hrow).
    rewrite Forall_forall in Htexts.
    repeat split; [exact Hr | lia | now apply Htexts].
  - apply (length_table_cells (Table.rows table) 0).
Qed.

Lemma X8_table_shape_witness :
  exists cells,
    process_shape Document table_shape 1 0 pptx_images
    = (add_block Document (Table 2 3 Table_Grid cells), 0)
    /\ (forall r c t,
          In (r, c, t) cells
          <-> exists row,
                nth_error (Table.rows (Shape.table table_shape)) r = Some row
                /\ nth_error row c = Some t)
    /\ (forall r c t,
          In (r, c, t) cells -> r < 2 /\ c < 3 /\ cell_text_ok t)
    /\ length cells = 6.
Proof.
  apply (@X8_table_cell_for_cell Document table_shape 1 0 pptx_images);
    try reflexivity.
  - simpl. repeat constructor.
  - simpl.
    repeat match goal with
      | |- Forall _ [] => apply Forall_nil
      | |- Forall _ (_ :: _) => apply Forall_cons
      | |- cell_text_ok _ => unfold cell_text_ok, Py.lit; simpl
      | |- _ \/ _ => right; right; right; split; [discriminate | reflexivity]
      end.
Defined.

(** ** The lines of a PDF page *)

Lemma split_from_nonempty sep cur s : Py.split_from sep cur s <> [].
Proof.
  revert cur. induction s as [|c t IH]; intro cur; simpl.
  - discriminate.
  - destruct (N.eqb c sep); [discriminate | apply IH].
Qed.

Lemma join_cons sep x l :
  l <> [] -> Py.join sep (x :: l) = x ++ sep ++ Py.join sep l.
Proof. destruct l; [congruence | reflexivity]. Qed.

Lemma join_split_from sep s : forall cur,
  Py.join [sep] (Py.split_from sep cur s) = rev cur ++ s.
Proof.
  induction s as [|c t IH]; intro cur; cbn [Py.split_from].
  - simpl. now rewrite app_nil_r.
  - destruct (N.eqb_spec c sep) as [->|Hne].
    + rewrite join_cons by apply split_from_nonempty.
      now rewrite IH.
    + rewrite IH. simpl. now rewrite <- app_assoc.
Qed.

Lemma split_from_no_sep sep s : forall cur,
  ~ In sep cur ->
  Forall (fun line => ~ In sep line) (Py.split_from sep cur s).
Proof.
  induction s as [|c t IH]; intros cur Hcur; simpl.
  - constructor; [|constructor]. now rewrite <- in_rev.
  - destruct (N.eqb_spec c sep) as [->|Hne].
    + constructor; [now rewrite <- in_rev | apply IH; intros []].
    + apply IH. intros [H|H]; [congruence | contradiction].
Qed.

Lemma length_split_from sep s : forall cur,
  length (Py.split_from sep cur s) = S (count_occ N.eq_dec s sep).
Proof.
  induction s as [|c t IH]; intro cur; simpl.
  - reflexivity.
  - destruct (N.eq_dec c sep) as [Heq|Hneq].
    + subst. rewrite N.eqb_refl. simpl. now rewrite IH.
    + destruct (N.eqb_spec c sep); [congruence | apply IH].
Qed.

Lemma paragraph_texts_app d1 d2 :
  paragraph_texts (d1 ++ d2) = paragraph_texts d1 ++ paragraph_texts d2.
Proof. apply flat_map_app. Qed.

Lemma paragraph_texts_page pdf image_dir i page :
  paragraph_texts (doc (process_page pdf image_dir Document i page))
  = Py.split Py.LF (Page.get_text page).
Proof.
  rewrite process_page_spec. simpl. unfold page_contents.
  rewrite !paragraph_texts_app. simpl. rewrite app_nil_r.
  assert (H1 : forall lines,
             paragraph_texts (map (fun line => Paragraph line None []) lines)
             = lines).
  { induction lines as [|l r IH]; simpl; [|rewrite IH]; reflexivity. }
  assert (H2 : forall (l : list (nat * Z)),
             paragraph_texts
               (map (fun '(j, _) => Picture (img_path image_dir i j) 4%Q) l)
             = []).
  { induction l as [|[j x] r IH]; simpl; auto. }
  now rewrite H1, H2, app_nil_r.
Qed.

(** X9. The text of a PDF page is carried over whole, cut at its line
    feeds: the paragraphs written for a page, joined by line feeds, give
    back the page's text; no paragraph contains a line feed; and their
    number is one more than the number of line feeds in the text, so that
    a page without text still gets one empty paragraph. *)
Theorem X9_page_text_line_for_line :
  forall (pdf : Pdf.t) (image_dir : Py.str) (i : nat) (page : Page.t),
    let lines :=
      paragraph_texts (doc (process_page pdf image_dir Document i page)) in
    Py.join [Py.LF] lines = Page.get_text page
    /\ Forall (fun line => ~ In Py.LF line) lines
    /\ length lines = S (count_occ N.eq_dec (Page.get_text page) Py.LF).
Proof.
  intros pdf image_dir i page lines. unfold lines.
  rewrite paragraph_texts_page. unfold Py.split. split; [|split].
  - apply (join_split_from Py.LF (Page.get_text page) []).
  - apply split_from_no_sep. intros [].
  - apply length_split_from.
Qed.

(** ** [os.path.splitext] *)

Lemma rfind_lt c s k : Py.rfind c s = Some k -> k < length s.
Proof.
  revert k. induction s as [|a t IH]; intros k H; simpl in *.
  - discriminate.
  - destruct (Py.rfind c t) as [k'|].
    + injection H as <-. specialize (IH k' eq_refl). lia.
    + destruct (N.eqb a c); [|discriminate]. injection H as <-. lia.
Qed.

Lemma rfind_not_in c s : ~ In c s -> Py.rfind c s = None.
Proof.
  induction s as [|a t IH]; intro H; simpl.
  - reflexivity.
  - rewrite IH by (intro; apply H; now right).
    destruct (N.eqb_spec a c) as [->|]; [|reflexivity].
    exfalso. apply H. now left.
Qed.

Lemma rfind_app_not_in c l r :
  ~ In c r -> Py.rfind c (l ++ r) = Py.rfind c l.
Proof.
  intro H. induction l as [|a l IH]; simpl.
  - now apply rfind_not_in.
  - now rewrite IH.
Qed.

Lemma rfind_last c l r :
  ~ In c r -> Py.rfind c (l ++ c :: r) = Some (length l).
Proof.
  intro H. induction l as [|a l IH]; simpl.
  - rewrite (@rfind_not_in c r H). now rewrite N.eqb_refl.
  - now rewrite IH.
Qed.

Lemma splitext_app p : fst (splitext p) ++ snd (splitext p) = p.
Proof.
  unfold splitext. destruct (Py.rfind 46 p) as [d|]; simpl.
  - repeat match goal with
      | |- context [if ?c then _ else _] => destruct c
      end; simpl; auto using firstn_skipn, app_nil_r.
  - apply app_nil_r.
Qed.

(** On a path cut into a directory part (empty, or ending in a slash), a
    name without slash, a dot, and a rest without dot or slash. *)
Lemma splitext_shape (dir name e : Py.str) :
  (dir = [] \/ exists d, dir = d ++ [47%N]) ->
  ~ In 47%N name -> ~ In 46%N e -> ~ In 47%N e ->
  splitext (dir ++ name ++ 46%N :: e)
  = if existsb (fun ch => negb (N.eqb ch 46)) name
    then (dir ++ name, 46%N :: e)
    else (dir ++ name ++ 46%N :: e, []).
Proof.
  intros Hdir Hname He46 He47. unfold splitext.
  assert (Hdot : Py.rfind 46 (dir ++ name ++ 46%N :: e)
                 = Some (length (dir ++ name))).
  { rewrite app_assoc. now apply rfind_last. }
  assert (Hsep : Py.rfind 47 (dir ++ name ++ 46%N :: e) = Py.rfind 47 dir).
  { apply rfind_app_not_in. intro H. apply in_app_or in H.
    destruct H as [H|[H|H]]; [tauto | discriminate | tauto]. }
  rewrite Hdot, Hsep.
  assert (Hseg : forall k,
             k = length dir ->
             firstn (length (dir ++ name) - k)
               (skipn k (dir ++ name ++ 46%N :: e)) = name).
  { intros k ->. rewrite skipn_app, skipn_all, Nat.sub_diag. simpl.
    rewrite length_app, Nat.add_comm, Nat.add_sub.
    rewrite firstn_app, firstn_all, Nat.sub_diag. simpl.
    apply app_nil_r. }
  assert (Hres : (firstn (length (dir ++ name)) (dir ++ name ++ 46%N :: e),
                  skipn (length (dir ++ name)) (dir ++ name ++ 46%N :: e))
                 = (dir ++ name, 46%N :: e)).
  { rewrite app_assoc. rewrite firstn_app, firstn_all, Nat.sub_diag.
    rewrite skipn_app, skipn_all, Nat.sub_diag. simpl.
    now rewrite app_nil_r. }
  destruct Hdir as [->|[d ->]].
  - simpl Py.rfind. cbv iota. rewrite (Hseg 0 eq_refl), Hres. reflexivity.
  - rewrite (@rfind_last 47%N d []) by (intros []).
    assert (Hlt : (length d <? length ((d ++ [47%N]) ++ name)) = true).
    { apply Nat.ltb_lt. rewrite !length_app. simpl. lia. }
    rewrite Hlt, Hseg, Hres; [reflexivity|].
    rewrite length_app. simpl. lia.
Qed.

(** On a path whose file name has no dot. *)
Lemma splitext_no_dot (dir name : Py.str) :
  (dir = [] \/ exists d, dir = d ++ [47%N]) ->
  ~ In 47%N name -> ~ In 46%N name ->
  splitext (dir ++ name) = (dir ++ name, []).
Proof.
  intros Hdir H47 H46. unfold splitext.
  rewrite (@rfind_app_not_in 46%N dir name H46),
    (@rfind_app_not_in 47%N dir name H47).
  destruct (Py.rfind 46 dir) as [k|] eqn:Ek; [|reflexivity].
  destruct Hdir as [->|[d ->]]; [discriminate|].
  rewrite (@rfind_last 47%N d []) by (intros []).
  assert (Hk : k < length d).
  { rewrite (@rfind_app_not_in 46%N d [47%N]) in Ek
      by (intros [H|[]]; discriminate).
    now apply rfind_lt in Ek. }
  assert (Hlt : (length d <? k) = false) by (apply Nat.ltb_ge; lia).
  now rewrite Hlt.
Qed.

(** ** The dispatcher *)

Lemma eqb_eq (a b : Py.str) : Py.eqb a b = true <-> a = b.
Proof.
  unfold Py.eqb. destruct (list_eq_dec N.eq_dec a b); split;
    congruence.
Qed.

Lemma eqb_cons (c : N) (a b : Py.str) : Py.eqb (c :: a) (c :: b) = Py.eqb a b.
Proof.
  unfold Py.eqb.
  destruct (list_eq_dec N.eq_dec a b), (list_eq_dec N.eq_dec (c :: a) (c :: b));
    congruence.
Qed.

Lemma convert_to_docx_no_extension host input_path output_path :
  snd (splitext input_path) = [] ->
  convert_to_docx host input_path output_path = rejected.
Proof. intro H. unfold convert_to_docx. now rewrite H. Qed.

(** X10. A path without extension is refused before anything is touched:
    when the file name has no dot, or no dot other than leading ones (as
    in [.pdf] or [docs/.pptx]), the dispatcher prints the unsupported-type
    message and exits with status 1; no input is opened, no directory is
    made, no file is written. *)
Theorem X10_no_extension_is_rejected :
  forall (host : Host.t) (dir name output_path : Py.str),
    (dir = [] \/ exists d, dir = d ++ [47%N]) ->
    ~ In 47%N name ->
    (~ In 46%N name
     \/ exists dots rest,
          name = dots ++ 46%N :: rest
          /\ Forall (fun ch => ch = 46%N) dots /\ ~ In 46%N rest) ->
    convert_to_docx host (dir ++ name) output_path
    = {| ensured_dirs := []; image_files := []; saved_docx := [];
         stdout := [Unsupported]; ended := SystemExit 1 |}.
Proof.
  intros host dir name output_path Hdir H47 Hname.
  apply convert_to_docx_no_extension.
  destruct Hname as [H46|[dots [rest [-> [Hdots Hrest]]]]].
  - now rewrite splitext_no_dot.
  - rewrite splitext_shape; try assumption.
    + assert (E : existsb (fun ch => negb (N.eqb ch 46)) dots = false).
      { clear -Hdots. induction Hdots as [|ch dots -> _ IH]; simpl; auto. }
      now rewrite E.
    + intro H. apply H47. apply in_or_app. now left.
    + intro H. apply H47. apply in_or_app. right. now right.
Qed.

Lemma X10_dot_pdf_witness :
  convert_to_docx sample_host (Py.lit "docs/.pdf") (Py.lit "out.docx")
  = {| ensured_dirs := []; image_files := []; saved_docx := [];
       stdout := [Unsupported]; ended := SystemExit 1 |}.
Proof.
  apply (@X10_no_extension_is_rejected sample_host (Py.lit "docs/")
           (Py.lit ".pdf") (Py.lit "out.docx")).
  - right. now exists (Py.lit "docs").
  - simpl. intros [H|[H|[H|[H|[]]]]]; discriminate.
  - right. exists [], (Py.lit "pdf"). repeat split.
    + constructor.
    + simpl. intros [H|[H|[H|[]]]]; discriminate.
Defined.

Lemma rfind_backslash_dir (d rest : Py.str) :
  ~ In 92%N rest ->
  match Py.rfind 92 ((d ++ [47%N]) ++ rest), Py.rfind 47 (d ++ [47%N]) with
  | Some s, Some s' => Some (Nat.max s s')
  | Some s, None => Some s
  | None, altsepIndex => altsepIndex
  end = Some (length d).
Proof.
  intro H.
  rewrite (@rfind_app_not_in 92%N (d ++ [47%N]) rest H).
  rewrite (@rfind_app_not_in 92%N d [47%N]) by (intros [E|[]]; discriminate).
  rewrite (@rfind_last 47%N d []) by (intros []).
  destruct (Py.rfind 92 d) as [k|] eqn:Ek; [|reflexivity].
  apply rfind_lt in Ek. f_equal. lia.
Qed.

(** Without a backslash after the directory part, the two flavours of
    [os.path.splitext] cut a path alike. *)
Lemma splitext_nt_agrees (dir rest : Py.str) :
  (dir = [] \/ exists d, dir = d ++ [47%N]) ->
  ~ In 92%N rest -> ~ In 47%N rest ->
  splitext_nt (dir ++ rest) = splitext (dir ++ rest).
Proof.
  intros Hdir H92 H47. unfold splitext_nt, splitext.
  rewrite (@rfind_app_not_in 47%N dir rest H47).
  destruct Hdir as [->|[d ->]].
  - simpl app. now rewrite (@rfind_not_in 92%N rest H92).
  - rewrite (@rfind_backslash_dir d rest H92).
    now rewrite (@rfind_last 47%N d []) by (intros []).
Qed.

(** X11. The dispatcher goes by the last extension of the file name and
    ignores the case of its ASCII letters: for a path that ends in a
    name, a dot and an ASCII extension, with no backslash in either, the
    presentation pipeline runs when the extension reads [pptx] once
    lowered, the PDF pipeline when it reads [pdf], each with the paths as
    given and its own image directory, and every other extension is
    refused. On such a path [ntpath] and [posixpath] cut the extension
    alike. *)
Theorem X11_routing_by_lowered_extension :
  forall (host : Host.t) (dir name e output_path : Py.str),
    (dir = [] \/ exists d, dir = d ++ [47%N]) ->
    ~ In 47%N name -> ~ In 92%N name ->
    (exists ch, In ch name /\ ch <> 46%N) ->
    ~ In 46%N e -> ~ In 47%N e -> ~ In 92%N e ->
    Forall (fun ch => Py.isascii ch = true) e ->
    let input_path := dir ++ name ++ 46%N :: e in
    splitext_nt input_path = splitext input_path
    /\ convert_to_docx host input_path output_path
       = if Py.eqb (map Py.lower_char e) (Py.lit "pptx") then
           pptx_to_docx_call host input_path output_path
             (Py.lit "pptx_images")
         else if Py.eqb (map Py.lower_char e) (Py.lit "pdf") then
           pdf_to_docx_call host input_path output_path (Py.lit "pdf_images")
         else rejected.
Proof.
  intros host dir name e output_path Hdir H47 H92 [ch [Hin Hch]] He46 He47
    He92 Hascii input_path.
  split.
  { apply splitext_nt_agrees; [assumption| |]; intro H;
      apply in_app_or in H; destruct H as [H|[H|H]];
      try tauto; discriminate. }
  unfold convert_to_docx, input_path.
  rewrite splitext_shape by assumption.
  assert (E : existsb (fun ch => negb (N.eqb ch 46)) name = true).
  { apply existsb_exists. exists ch. split; [assumption|].
    now destruct (N.eqb_spec ch 46). }
  rewrite E. cbn [snd]. unfold Py.lower.
  assert (A : forallb Py.isascii (46%N :: e) = true).
  { apply forallb_forall. intros x [<-|Hx]; [reflexivity|].
    rewrite Forall_forall in Hascii. now apply Hascii. }
  rewrite A. cbn [map].
  change (Py.lower_char 46) with 46%N.
  change (Py.lit ".pptx") with (46%N :: Py.lit "pptx").
  change (Py.lit ".pdf") with (46%N :: Py.lit "pdf").
  now rewrite !eqb_cons.
Qed.

Lemma X11_upper_case_witness :
  splitext_nt (Py.lit "docs/deck.v2.PPTX") = splitext (Py.lit "docs/deck.v2.PPTX")
  /\ convert_to_docx sample_host (Py.lit "docs/deck.v2.PPTX")
       (Py.lit "out.docx")
     = pptx_to_docx_call sample_host (Py.lit "docs/deck.v2.PPTX")
         (Py.lit "out.docx") (Py.lit "pptx_images").
Proof.
  apply (@X11_routing_by_lowered_extension sample_host (Py.lit "docs/")
           (Py.lit "deck.v2") (Py.lit "PPTX") (Py.lit "out.docx")).
  - right. now exists (Py.lit "docs").
  - simpl. intros H. repeat (destruct H as [H|H]; [discriminate|]).
    exact H.
  - simpl. intros H. repeat (destruct H as [H|H]; [discriminate|]).
    exact H.
  - exists 100%N. split; [now left | discriminate].
  - simpl. intros H. repeat (destruct H as [H|H]; [discriminate|]).
    exact H.
  - simpl. intros H. repeat (destruct H as [H|H]; [discriminate|]).
    exact H.
  - simpl. intros H. repeat (destruct H as [H|H]; [discriminate|]).
    exact H.
  - repeat constructor.
Defined.

(** ** The command line *)

(** X12. When the output line is left blank, a document is saved only
    under the input path with its extension replaced by [.docx], and that
    is never the input path itself: a run with the default output does
    not write its document over its input. *)
Theorem X12_default_output_spares_the_input :
  forall (host : Host.t) (input_line output_line : Py.str),
    Py.strip output_line = [] ->
    let input_path := Py.strip input_line in
    forall path blocks,
      In (path, blocks) (saved_docx (main host input_line output_line)) ->
      path = fst (splitext input_path) ++ Py.lit ".docx"
      /\ path <> input_path.
Proof.
  intros host input_line output_line Hblank input_path path blocks.
  unfold main. rewrite Hblank. fold input_path. cbn [saved_docx].
  unfold output_path_for, convert_to_docx.
  set (out := fst (splitext input_path) ++ Py.lit ".docx").
  assert (Hne : forall target,
             target <> Py.lit ".docx" ->
             Py.eqb (Py.lower (Host.unicode_lower host)
                       (snd (splitext input_path))) target = true ->
             out <> input_path).
  { intros target Htarget E Heq. apply eqb_eq in E.
    unfold out in Heq. rewrite <- (splitext_app input_path) in Heq at 2.
    apply app_inv_head in Heq. rewrite <- Heq in E.
    apply Htarget. rewrite <- E. reflexivity. }
  destruct (Py.eqb _ (Py.lit ".pptx")) eqn:E1.
  - unfold pptx_to_docx_call.
    destruct (Host.open_pptx host input_path); simpl; [|intros []].
    intros [H|[]]. injection H as <- _. split; [reflexivity|].
    apply (Hne (Py.lit ".pptx")); [discriminate | exact E1].
  - destruct (Py.eqb _ (Py.lit ".pdf")) eqn:E2.
    + unfold pdf_to_docx_call.
      destruct (Host.open_pdf host input_path); simpl; [|intros []].
      intros [H|[]]. injection H as <- _. split; [reflexivity|].
      apply (Hne (Py.lit ".pdf")); [discriminate | exact E2].
    + intros [].
Qed.

Lemma X12_blank_output_witness :
  Py.lit "docs/deck.docx"
  = fst (splitext (Py.strip (Py.lit " docs/deck.PPTX "))) ++ Py.lit ".docx"
  /\ Py.lit "docs/deck.docx" <> Py.strip (Py.lit " docs/deck.PPTX ").
Proof.
  apply (@X12_default_output_spares_the_input sample_host
           (Py.lit " docs/deck.PPTX ") (Py.lit " ") eq_refl
           (Py.lit "docs/deck.docx")
           (doc (pptx_to_docx sample_prs pptx_images))).
  left. reflexivity.
Defined.

Example main_on_sample_host :
  saved_docx (main sample_host (Py.lit " docs/deck.PPTX ") (Py.lit " "))
  = [(Py.lit "docs/deck.docx", doc (pptx_to_docx sample_prs pptx_images))]
  /\ ended (main sample_host (Py.lit "notes.txt") []) = SystemExit 1
  /\ saved_docx (main sample_host (Py.lit "a.pdf") (Py.lit "a.pdf"))
     = [(Py.lit "a.pdf", doc (pdf_to_docx sample_pdf pdf_images))].
Proof. repeat split. Qed.
